(** * Version filtering of the generated API pages

    A shallow embedding of the two browser scripts that hide and show the
    version-tagged elements of the generated documentation:

    - the script of the index page (selector controller): [filterClear],
      [filterApply], its [readystatechange] listener and its [message]
      listener;
    - [res/filter-classes.js], loaded by every class page shown in the
      [iframeClass] frame (frame filter controller).

    The definitions come in layers: the part of the JavaScript semantics
    the scripts rely on ([Js]), the part of the DOM they touch ([Dom]), the
    scripts themselves ([Selector], [Frame]), the effect of a filter on one
    element ([Visibility]) and a few documents to run them on ([Samples]).
    The properties follow. *)

From Stdlib Require Import ZArith QArith Qround Ascii String Bool.
From stdpp Require Import base list gmap strings.

Local Open Scope string_scope.

Set Warnings "-register-all".

(** ** JavaScript values and operators *)

Module Js.

(** Values that travel in a message or sit in a script variable: undefined,
    null, booleans, strings, arrays and plain objects.  A string is its
    sequence of code units; one [ascii] stands for a code unit below 256.
    Number payloads are left out: numbers only occur as the intermediate
    results of [ToNumber].  An array holds index properties only and an
    object holds own data properties only (a structured clone carries no
    functions). *)
Inductive JsValue : Type :=
| VUndefined
| VNull
| VBool (b : bool)
| VString (s : string)
| VArray (elements : list JsValue)
| VObject (properties : list (string * JsValue)).

(** A Number value: NaN, an infinity, or a finite binary64 value given by
    its sign and its exact magnitude ([Finite true 0] is -0). *)
Inductive Number : Type :=
| NaN
| Infinity (negative : bool)
| Finite (negative : bool) (magnitude : Q).

(** Primitive values, the results of [ToPrimitive]. *)
Inductive Primitive : Type :=
| PUndefined
| PNull
| PBool (b : bool)
| PNumber (n : Number)
| PString (s : string).

(** The only exception the scripts can raise. *)
Inductive Exception : Type := TypeError.

(** Completion of an expression: a value or an abrupt completion. *)
Inductive Completion (A : Type) : Type :=
| Normal (a : A)
| Throw (e : Exception).
Arguments Normal {A} a.
Arguments Throw {A} e.

Definition bindC {A B} (c : Completion A) (k : A -> Completion B) : Completion B :=
  match c with
  | Normal a => k a
  | Throw e => Throw e
  end.

(** *** Rounding to binary64 *)

Definition pow2 (k : Z) : Q := Qpower 2 k.

(** [floorLog2 q] is the integer [k] with [2^k <= q < 2^(k+1)], for [q > 0]. *)
Definition floorLog2 (q : Q) : Z :=
  let k := (Z.log2 (Qnum q) - Z.log2 (Zpos (Qden q)))%Z in
  if Qle_bool (pow2 k) q then k else (k - 1)%Z.

(** Nearest integer, ties to even, for [q >= 0]. *)
Definition roundHalfEven (q : Q) : Z :=
  let f := Qfloor q in
  match Qcompare (q - inject_Z f) (1 # 2) with
  | Lt => f
  | Gt => (f + 1)%Z
  | Eq => if Z.even f then f else (f + 1)%Z
  end.

(** The Number value for a mathematical value of magnitude [q >= 0]:
    round to nearest, ties to even, with 53 bits of precision, gradual
    underflow below [2^-1022] and overflow to infinity from [2^1024]. *)
Definition roundBinary64 (negative : bool) (q : Q) : Number :=
  if Qeq_bool q 0 then Finite negative 0
  else
    let e := floorLog2 q in
    let p := (Z.max e (-1022) - 52)%Z in
    let m := roundHalfEven (q / pow2 p) in
    let r := Qred (inject_Z m * pow2 p) in
    if Qle_bool (pow2 1024) r then Infinity negative else Finite negative r.

(** *** StringToNumber *)

Definition codeUnit (c : ascii) : Z := Z.of_N (N_of_ascii c).

(** StrWhiteSpaceChar, for code units below 256: TAB, LF, VT, FF, CR, SP
    and NBSP. *)
Definition isStrWhiteSpaceChar (c : ascii) : bool :=
  let n := codeUnit c in
  ((9 <=? n) && (n <=? 13) || (n =? 32) || (n =? 160))%Z.

Definition isDecimalDigit (c : ascii) : bool :=
  let n := codeUnit c in ((48 <=? n) && (n <=? 57))%Z.

(** Value of a digit in a radix up to 16, if it is one. *)
Definition digitValue (radix : Z) (c : ascii) : option Z :=
  let n := codeUnit c in
  let v :=
    if ((48 <=? n) && (n <=? 57))%Z then Some (n - 48)%Z
    else if ((97 <=? n) && (n <=? 102))%Z then Some (n - 87)%Z
    else if ((65 <=? n) && (n <=? 70))%Z then Some (n - 55)%Z
    else None in
  match v with
  | Some d => if (d <? radix)%Z then Some d else None
  | None => None
  end.

(** Mathematical value of a non-empty run of digits; [None] when the run is
    empty or holds another character. *)
Fixpoint digitsMVFrom (radix : Z) (acc : Z) (s : list ascii) : option Z :=
  match s with
  | [] => Some acc
  | c :: rest =>
      match digitValue radix c with
      | Some d => digitsMVFrom radix (radix * acc + d)%Z rest
      | None => None
      end
  end.

Definition digitsMV (radix : Z) (s : list ascii) : option Z :=
  match s with
  | [] => None
  | _ => digitsMVFrom radix 0 s
  end.

Fixpoint dropWhileWS (s : list ascii) : list ascii :=
  match s with
  | c :: rest => if isStrWhiteSpaceChar c then dropWhileWS rest else s
  | [] => []
  end.

Definition trimWS (s : list ascii) : list ascii :=
  rev (dropWhileWS (rev (dropWhileWS s))).

Fixpoint spanDigits (s : list ascii) : list ascii * list ascii :=
  match s with
  | c :: rest =>
      if isDecimalDigit c
      then let '(ds, tl) := spanDigits rest in (c :: ds, tl)
      else ([], s)
  | [] => ([], [])
  end.

(** ExponentPart, or nothing: the exponent it denotes. *)
Definition exponentMV (s : list ascii) : option Z :=
  match s with
  | [] => Some 0%Z
  | c :: rest =>
      if (codeUnit c =? 101)%Z || (codeUnit c =? 69)%Z then
        match rest with
        | sgn :: ds =>
            if (codeUnit sgn =? 43)%Z then digitsMV 10 ds
            else if (codeUnit sgn =? 45)%Z then Z.opp <$> digitsMV 10 ds
            else digitsMV 10 rest
        | [] => None
        end
      else None
  end.

(** StrUnsignedDecimalLiteral without the Infinity alternative: digits with
    an optional fraction and exponent, or a fraction with at least one
    digit.  The result is the exact mathematical value. *)
Definition unsignedDecimalMV (s : list ascii) : option Q :=
  let '(ip, r1) := spanDigits s in
  let '(fp, r2) :=
    match r1 with
    | c :: r => if (codeUnit c =? 46)%Z then spanDigits r else ([], r1)
    | [] => ([], [])
    end in
  match ip, fp with
  | [], [] => None
  | _, _ =>
      match digitsMVFrom 10 0 (ip ++ fp), exponentMV r2 with
      | Some m, Some e =>
          Some (inject_Z m * Qpower 10 (e - Z.of_nat (length fp)))%Q
      | _, _ => None
      end
  end.

Definition listOfString (s : string) : list ascii := list_ascii_of_string s.

Definition unsignedDecimal (negative : bool) (s : list ascii) : Number :=
  if bool_decide (s = listOfString "Infinity") then Infinity negative
  else
    match unsignedDecimalMV s with
    | Some q => roundBinary64 negative q
    | None => NaN
    end.

(** NonDecimalIntegerLiteral: a radix prefix followed by digits. *)
Definition nonDecimalMV (s : list ascii) : option Z :=
  match s with
  | z :: x :: ds =>
      if (codeUnit z =? 48)%Z then
        let n := codeUnit x in
        if ((n =? 120) || (n =? 88))%Z then digitsMV 16 ds
        else if ((n =? 111) || (n =? 79))%Z then digitsMV 8 ds
        else if ((n =? 98) || (n =? 66))%Z then digitsMV 2 ds
        else None
      else None
  | _ => None
  end.

(** StringToNumber: white space is trimmed; the empty string is +0; a
    literal that does not parse is NaN. *)
Definition StringToNumber (str : string) : Number :=
  match trimWS (listOfString str) with
  | [] => Finite false 0
  | (c :: rest) as lit =>
      match nonDecimalMV lit with
      | Some m => roundBinary64 false (inject_Z m)
      | None =>
          if (codeUnit c =? 43)%Z then unsignedDecimal false rest
          else if (codeUnit c =? 45)%Z then unsignedDecimal true rest
          else unsignedDecimal false lit
      end
  end.

(** *** Conversions *)

(** ToBoolean, as used by [if], [||] and [&&]. *)
Definition ToBoolean (v : JsValue) : bool :=
  match v with
  | VUndefined | VNull => false
  | VBool b => b
  | VString s => negb (String.eqb s EmptyString)
  | VArray _ | VObject _ => true
  end.

Definition hasOwnProperty (properties : list (string * JsValue)) (key : string) : bool :=
  existsb (fun kv => String.eqb (fst kv) key) properties.

(** ToString.  An array is joined with commas, undefined and null elements
    giving the empty string.  A plain object goes through
    [Object.prototype.toString], unless an own [toString] property shadows
    it: an own property of a cloned object is never callable, and the
    inherited [valueOf] returns the object itself, so that no primitive is
    found and a TypeError is thrown. *)
Fixpoint ToString (v : JsValue) : Completion string :=
  match v with
  | VUndefined => Normal "undefined"
  | VNull => Normal "null"
  | VBool true => Normal "true"
  | VBool false => Normal "false"
  | VString s => Normal s
  | VArray elements =>
      (fix join (l : list JsValue) : Completion string :=
         match l with
         | [] => Normal EmptyString
         | x :: rest =>
             bindC (match x with
                    | VUndefined | VNull => Normal EmptyString
                    | _ => ToString x
                    end)
               (fun sx =>
                  match rest with
                  | [] => Normal sx
                  | _ => bindC (join rest) (fun sr => Normal (sx ++ "," ++ sr))
                  end)
         end) elements
  | VObject properties =>
      if hasOwnProperty properties "toString" then Throw TypeError
      else Normal "[object Object]"
  end.

(** ToPrimitive: a primitive is returned as it is; for an array or a plain
    object [valueOf] returns the object, so that the result is the one of
    [toString], whatever the hint. *)
Definition ToPrimitive (v : JsValue) : Completion Primitive :=
  match v with
  | VUndefined => Normal PUndefined
  | VNull => Normal PNull
  | VBool b => Normal (PBool b)
  | VString s => Normal (PString s)
  | VArray _ | VObject _ => bindC (ToString v) (fun s => Normal (PString s))
  end.

Definition ToNumber (p : Primitive) : Number :=
  match p with
  | PUndefined => NaN
  | PNull => Finite false 0
  | PBool true => Finite false 1
  | PBool false => Finite false 0
  | PNumber n => n
  | PString s => StringToNumber s
  end.

(** *** Comparison of numbers and of strings *)

(** Number::equal: NaN equals nothing, +0 equals -0. *)
Definition Number_equal (x y : Number) : bool :=
  match x, y with
  | NaN, _ | _, NaN => false
  | Infinity a, Infinity b => Bool.eqb a b
  | Finite a p, Finite b q =>
      Qeq_bool p q && (Qeq_bool p 0 || Bool.eqb a b)
  | _, _ => false
  end.

(** The real number a finite value denotes. *)
Definition realOf (negative : bool) (magnitude : Q) : Q :=
  if negative then Qopp magnitude else magnitude.

(** Number::lessThan; [None] is the undefined result of a comparison with
    NaN. *)
Definition Number_lessThan (x y : Number) : option bool :=
  match x, y with
  | NaN, _ | _, NaN => None
  | Infinity a, Infinity b => Some (a && negb b)
  | Infinity a, Finite _ _ => Some a
  | Finite _ _, Infinity b => Some (negb b)
  | Finite a p, Finite b q =>
      Some (negb (Qle_bool (realOf b q) (realOf a p)))
  end.

(** [x < y] on strings: false when [y] is a prefix of [x], true when [x] is
    a proper prefix of [y], and otherwise decided by the code units at the
    first index where they differ. *)
Fixpoint String_lessThan (x y : string) : bool :=
  match x, y with
  | _, EmptyString => false
  | EmptyString, String _ _ => true
  | String c x', String d y' =>
      if (codeUnit c =? codeUnit d)%Z then String_lessThan x' y'
      else (codeUnit c <? codeUnit d)%Z
  end.

(** *** The operators [==] and [<=] *)

(** IsLooselyEqual on primitives: strict equality within a type, null and
    undefined equal each other, a boolean is compared as a number, and a
    string meets a number as a number. *)
Definition looseEqPrimitive (x y : Primitive) : bool :=
  match x, y with
  | (PUndefined | PNull), (PUndefined | PNull) => true
  | (PUndefined | PNull), _ | _, (PUndefined | PNull) => false
  | PBool a, PBool b => Bool.eqb a b
  | PString a, PString b => String.eqb a b
  | _, _ => Number_equal (ToNumber x) (ToNumber y)
  end.

(** [x == y] for a right operand that is a primitive (a string literal or
    the result of [getAttribute]).  An object on the left is equal to neither
    null nor undefined, and is converted by [ToPrimitive] otherwise. *)
Definition looseEq (x : JsValue) (y : Primitive) : Completion bool :=
  match y with
  | PUndefined | PNull =>
      match x with
      | VUndefined | VNull => Normal true
      | _ => Normal false
      end
  | _ => bindC (ToPrimitive x) (fun px => Normal (looseEqPrimitive px y))
  end.

(** [x <= y] for a left operand that is a primitive: [y < x] is computed,
    on strings when both operands are strings after [ToPrimitive] and on
    numbers otherwise, and the result is true exactly when that comparison
    is false (neither true nor undefined). *)
Definition lessEq (x : Primitive) (y : JsValue) : Completion bool :=
  bindC (ToPrimitive y) (fun py =>
    match x, py with
    | PString sx, PString sy => Normal (negb (String_lessThan sy sx))
    | _, _ =>
        match Number_lessThan (ToNumber py) (ToNumber x) with
        | Some false => Normal true
        | Some true | None => Normal false
        end
    end).

(** *** Property access *)

Fixpoint lookupProperty (properties : list (string * JsValue)) (key : string)
  : option JsValue :=
  match properties with
  | [] => None
  | (k, v) :: rest => if String.eqb k key then Some v else lookupProperty rest key
  end.

(** [v.key] for a key that no built-in prototype defines (the scripts read
    [method], [version] and [delta]): a TypeError on undefined and null,
    the own property of an object, and undefined otherwise.  An array of
    [JsValue] has index properties only, so that it has no such key; an
    array with named own properties is not a value of this model. *)
Definition Get (v : JsValue) (key : string) : Completion JsValue :=
  match v with
  | VUndefined | VNull => Throw TypeError
  | VObject properties =>
      Normal (default VUndefined (lookupProperty properties key))
  | VBool _ | VString _ | VArray _ => Normal VUndefined
  end.

End Js.

(** ** The documents the scripts run in *)

Module Dom.
Import Js.

(** An element: its local name (lower case for the elements of an HTML
    page), its attributes other than [class], and the tokens of its class
    list. *)
Record Element : Type := mkElement {
  localName : string;
  attributes : gmap string string;
  classList : list string
}.

(** The one function the scripts ever install as a change handler:
    [function (e) { update(); }]. *)
Inductive Handler : Type := CallUpdate.

(** A form control ([select] or [input]) with the properties the selector
    script reads and writes. *)
Record FormControl : Type := mkFormControl {
  value : string;
  disabled : bool;
  checked : bool;
  onchange : option Handler
}.

(** A document with its window.  [nodes] lists, in document order, the
    elements other than the four the index page looks up by id; these four
    are a [select], an [input], a [label] and an [iframe], carry no version
    attribute, and are absent ([None]) where [getElementById] returns null.
    [iframeClass] holds the messages posted to the frame's window and
    [parent] those posted to the parent window, oldest first.  The loop
    counter [index], which the scripts leave undeclared and so keep on the
    window, is not part of this state: every loop assigns it before reading
    it, and nothing else reads it. *)
Record Document : Type := mkDocument {
  nodes : list Element;
  tags : option FormControl;
  viewModeDelta : option FormControl;
  viewModeDeltaLbl : option Element;
  iframeClass : option (list JsValue);
  parent : list JsValue
}.

Definition setNodes (l : list Element) (d : Document) : Document :=
  mkDocument l (tags d) (viewModeDelta d) (viewModeDeltaLbl d) (iframeClass d) (parent d).
Definition setTags (c : option FormControl) (d : Document) : Document :=
  mkDocument (nodes d) c (viewModeDelta d) (viewModeDeltaLbl d) (iframeClass d) (parent d).
Definition setViewModeDelta (c : option FormControl) (d : Document) : Document :=
  mkDocument (nodes d) (tags d) c (viewModeDeltaLbl d) (iframeClass d) (parent d).
Definition setViewModeDeltaLbl (e : option Element) (d : Document) : Document :=
  mkDocument (nodes d) (tags d) (viewModeDelta d) e (iframeClass d) (parent d).
Definition setIframeClass (q : option (list JsValue)) (d : Document) : Document :=
  mkDocument (nodes d) (tags d) (viewModeDelta d) (viewModeDeltaLbl d) q (parent d).
Definition setParent (q : list JsValue) (d : Document) : Document :=
  mkDocument (nodes d) (tags d) (viewModeDelta d) (viewModeDeltaLbl d) (iframeClass d) q.

(** *** Scripts: state passing with exceptions

    A script transforms the document and completes normally or abruptly;
    what it changed before it threw stays changed. *)
Definition Script (A : Type) : Type := Document -> Completion A * Document.

Definition ret {A} (a : A) : Script A := fun d => (Normal a, d).
Definition throw {A} (e : Exception) : Script A := fun d => (Throw e, d).
Definition bind {A B} (m : Script A) (k : A -> Script B) : Script B :=
  fun d =>
    match m d with
    | (Normal a, d') => k a d'
    | (Throw e, d') => (Throw e, d')
    end.
Definition lift {A} (c : Completion A) : Script A := fun d => (c, d).
Definition modify (f : Document -> Document) : Script unit :=
  fun d => (Normal tt, f d).

Declare Scope script_scope.
Delimit Scope script_scope with script.
Bind Scope script_scope with Script.
Notation "x <- m ;; k" := (bind m (fun x => k))
  (at level 100, m at next level, right associativity) : script_scope.
Notation "m ;; k" := (bind m (fun _ => k))
  (at level 100, right associativity) : script_scope.
Local Open Scope script_scope.

(** [a || b] on booleans, the right operand being evaluated only when the
    left one is false. *)
Definition orElse (a : Script bool) (b : Script bool) : Script bool :=
  x <- a ;; if x then ret true else b.

(** *** Elements and class lists *)

(** [getAttribute]: the value of the attribute, or null. *)
Definition attributeOf (e : Element) (name : string) : Primitive :=
  match attributes e !! name with
  | Some v => PString v
  | None => PNull
  end.

Definition hasAttribute (e : Element) (name : string) : bool :=
  bool_decide (is_Some (attributes e !! name)).

Definition contains (tokens : list string) (token : string) : bool :=
  bool_decide (token ∈ tokens).

(** [DOMTokenList.remove]: the token is taken out. *)
Definition tokensRemove (token : string) (tokens : list string) : list string :=
  filter (fun t => t <> token) tokens.

(** [DOMTokenList.add]: the token is appended unless it is there. *)
Definition tokensAdd (token : string) (tokens : list string) : list string :=
  if contains tokens token then tokens else (tokens ++ [token])%list.

Definition withClassList (f : list string -> list string) (e : Element) : Element :=
  mkElement (localName e) (attributes e) (f (classList e)).

(** *** Selectors *)

(** A compound selector [type[attribute]]; [None] is the missing type
    selector of a bare [[attribute]]. *)
Record CompoundSelector : Type := mkSelector {
  typeSelector : option string;
  attributeSelector : string
}.

Definition matchesSelector (e : Element) (s : CompoundSelector) : bool :=
  match typeSelector s with
  | Some t => String.eqb (localName e) t
  | None => true
  end && hasAttribute e (attributeSelector s).

(** An element matches a selector list when it matches one of its
    selectors. *)
Definition matchesAny (selectors : list CompoundSelector) (e : Element) : bool :=
  existsb (matchesSelector e) selectors.

(** Positions, counted from [start], of the elements that match. *)
Fixpoint matchingFrom (selectors : list CompoundSelector) (start : nat) (l : list Element)
  : list nat :=
  match l with
  | [] => []
  | e :: rest =>
      if matchesAny selectors e
      then start :: matchingFrom selectors (S start) rest
      else matchingFrom selectors (S start) rest
  end.

(** [document.querySelectorAll]: a static list of references to the
    matching elements, in document order.  A reference is the position of
    the element in [nodes]. *)
Definition querySelectorAll (selectors : list CompoundSelector) : Script (list nat) :=
  fun d => (Normal (matchingFrom selectors 0 (nodes d)), d).

(** Access through a reference; a reference to nothing is [undefined], and
    a property access on it throws. *)
Definition getAttribute (classItem : nat) (name : string) : Script Primitive :=
  fun d =>
    match nodes d !! classItem with
    | Some e => (Normal (attributeOf e name), d)
    | None => (Throw TypeError, d)
    end.

Definition updateClassList (classItem : nat) (f : list string -> list string)
  : Script unit :=
  fun d =>
    match nodes d !! classItem with
    | Some e => (Normal tt, setNodes (<[classItem := withClassList f e]> (nodes d)) d)
    | None => (Throw TypeError, d)
    end.

Definition classList_remove (classItem : nat) (token : string) : Script unit :=
  updateClassList classItem (tokensRemove token).

Definition classList_add (classItem : nat) (token : string) : Script unit :=
  updateClassList classItem (tokensAdd token).

(** [for (index = 0; index < classList.length; index++)] with
    [classItem = classList[index]] in its body; the counter itself is not
    kept (see [Document]). *)
Fixpoint forEach (classList : list nat) (body : nat -> Script unit) : Script unit :=
  match classList with
  | [] => ret tt
  | classItem :: rest => body classItem ;; forEach rest body
  end.

(** *** Messages *)

(** [document.getElementById('iframeClass').contentWindow.postMessage(m, '*')]:
    a TypeError when there is no such element. *)
Definition postMessageToFrame (message : JsValue) : Script unit :=
  fun d =>
    match iframeClass d with
    | Some queue => (Normal tt, setIframeClass (Some (queue ++ [message])%list) d)
    | None => (Throw TypeError, d)
    end.

(** [window.parent.postMessage(m, '*')]. *)
Definition postMessageToParent (message : JsValue) : Script unit :=
  modify (fun d => setParent (parent d ++ [message])%list d).

(** *** The controls of the index page

    A variable that holds the result of [getElementById] is a reference to
    the control, or null; a property access through null throws. *)
Definition control (c : option FormControl) : Script FormControl :=
  match c with
  | Some x => ret x
  | None => throw TypeError
  end.

(** [selection], that is [document.getElementById('tags')]. *)
Definition selection : Script FormControl :=
  fun d => control (tags d) d.

(** [viewModeDelta], that is [document.getElementById('viewModeDelta')]. *)
Definition viewModeDeltaControl : Script FormControl :=
  fun d => control (viewModeDelta d) d.

Definition withOnchange (h : option Handler) (c : FormControl) : FormControl :=
  mkFormControl (value c) (disabled c) (checked c) h.

Definition withDisabled (b : bool) (c : FormControl) : FormControl :=
  mkFormControl (value c) b (checked c) (onchange c).

End Dom.

(** ** The script of the index page (selector controller) *)

Module Selector.
Import Js Dom.
Local Open Scope script_scope.

(** ['li[data-version-first], li[data-version-last]'] *)
Definition taggedSelectors : list CompoundSelector :=
  [ mkSelector (Some "li") "data-version-first";
    mkSelector (Some "li") "data-version-last" ].

Definition filterClear : Script unit :=
  classList <- querySelectorAll taggedSelectors ;;
  postMessageToFrame (VObject [("method", VString "filterClear")]) ;;
  forEach classList (fun classItem =>
    classList_remove classItem "hidden").

(** The value given to [show] in the body of the loop of [filterApply]. *)
Definition show (version delta : JsValue) (classItem : nat) : Script bool :=
  if ToBoolean delta then
    orElse
      (first <- getAttribute classItem "data-version-first" ;;
       lift (looseEq version first))
      (last <- getAttribute classItem "data-version-last" ;;
       lift (looseEq version last))
  else
    orElse
      (lift (looseEq version (PString "master")))
      (orElse
         (first <- getAttribute classItem "data-version-first" ;;
          lift (lessEq first version))
         (last <- getAttribute classItem "data-version-last" ;;
          lift (lessEq last version))).

Definition filterApply (version delta : JsValue) : Script unit :=
  classList <- querySelectorAll taggedSelectors ;;
  postMessageToFrame
    (VObject [("method", VString "filterApply"); ("version", version); ("delta", delta)]) ;;
  forEach classList (fun classItem =>
    visible <- show version delta classItem ;;
    if visible then classList_remove classItem "hidden"
    else classList_add classItem "hidden").

(** [viewModeDelta.disabled == false && viewModeDelta.checked] *)
Definition deltaArgument : Script JsValue :=
  c <- viewModeDeltaControl ;;
  ret (VBool (Bool.eqb (disabled c) false && checked c)).

(** The closure [update] of the [readystatechange] listener.  Its captured
    variables refer to the controls of the document. *)
Definition update : Script unit :=
  sel <- selection ;;
  if String.eqb (value sel) "master" then
    filterClear ;;
    delta <- deltaArgument ;;
    filterApply (VString (value sel)) delta
  else
    c <- viewModeDeltaControl ;;
    modify (fun d => setViewModeDelta (Some (withDisabled false c)) d) ;;
    (fun d =>
       match viewModeDeltaLbl d with
       | Some lbl =>
           (Normal tt,
            setViewModeDeltaLbl (Some (withClassList (tokensRemove "hidden") lbl)) d)
       | None => (Throw TypeError, d)
       end) ;;
    delta <- deltaArgument ;;
    filterApply (VString (value sel)) delta.

(** The [readystatechange] listener: both change handlers are bound. *)
Definition onReadyStateChange : Script unit :=
  sel <- selection ;;
  modify (fun d => setTags (Some (withOnchange (Some CallUpdate) sel)) d) ;;
  c <- viewModeDeltaControl ;;
  modify (fun d => setViewModeDelta (Some (withOnchange (Some CallUpdate) c)) d).

(** Calling a handler; calling null throws. *)
Definition call (h : option Handler) : Script unit :=
  match h with
  | Some CallUpdate => update
  | None => throw TypeError
  end.

(** The [message] listener, for an event whose [data] is [data]. *)
Definition onMessage (data : JsValue) : Script unit :=
  method <- lift (Get data "method") ;;
  isGetFilter <- lift (looseEq method (PString "getFilter")) ;;
  if isGetFilter then
    sel <- selection ;;
    call (onchange sel)
  else ret tt.

End Selector.

(** ** [res/filter-classes.js] (frame filter controller) *)

Module Frame.
Import Js Dom.
Local Open Scope script_scope.

(** ['[data-version-first], [data-version-last]'] *)
Definition taggedSelectors : list CompoundSelector :=
  [ mkSelector None "data-version-first";
    mkSelector None "data-version-last" ].

Definition filterClear : Script unit :=
  classList <- querySelectorAll taggedSelectors ;;
  forEach classList (fun classItem =>
    classList_remove classItem "hidden").

(** The value given to [show] in the body of the loop of [filterApply]. *)
Definition show (version delta : JsValue) (classItem : nat) : Script bool :=
  if ToBoolean delta then
    orElse
      (first <- getAttribute classItem "data-version-first" ;;
       lift (looseEq version first))
      (last <- getAttribute classItem "data-version-last" ;;
       lift (looseEq version last))
  else
    orElse
      (lift (looseEq version (PString "master")))
      (orElse
         (first <- getAttribute classItem "data-version-first" ;;
          lift (lessEq first version))
         (last <- getAttribute classItem "data-version-last" ;;
          lift (lessEq last version))).

Definition filterApply (version delta : JsValue) : Script unit :=
  classList <- querySelectorAll taggedSelectors ;;
  forEach classList (fun classItem =>
    visible <- show version delta classItem ;;
    if visible then classList_remove classItem "hidden"
    else classList_add classItem "hidden").

(** The [message] listener, for an event whose [data] is [data]. *)
Definition onMessage (data : JsValue) : Script unit :=
  method <- lift (Get data "method") ;;
  isClear <- lift (looseEq method (PString "filterClear")) ;;
  if isClear then filterClear
  else
    method' <- lift (Get data "method") ;;
    isApply <- lift (looseEq method' (PString "filterApply")) ;;
    if isApply then
      version <- lift (Get data "version") ;;
      delta <- lift (Get data "delta") ;;
      filterApply version delta
    else ret tt.

(** The [readystatechange] listener: the parent is asked for its filter. *)
Definition onReadyStateChange : Script unit :=
  postMessageToParent (VObject [("method", VString "getFilter")]).

End Frame.

(** ** What a filter does to one element *)

Module Visibility.
Import Js Dom.

Definition dataVersionFirst : string := "data-version-first".
Definition dataVersionLast : string := "data-version-last".

(** An element is tagged when it carries one of the two version
    attributes; the frame script selects the tagged elements and the index
    page script the tagged list items. *)
Definition tagged (e : Element) : bool :=
  hasAttribute e dataVersionFirst || hasAttribute e dataVersionLast.

Definition listItem (e : Element) : bool := String.eqb (localName e) "li".

Definition isHidden (e : Element) : bool := contains (classList e) "hidden".

(** The visibility rule as a function of the filter and of the two
    attribute values of an element, [PNull] standing for a missing
    attribute: exact match in delta mode; in cumulative mode, the version
    is master or one of the two values is at most the version. *)
Definition computeVisibility (version delta : JsValue) (versionFirst versionLast : Primitive)
  : Completion bool :=
  if ToBoolean delta then
    bindC (looseEq version versionFirst) (fun a =>
      if a then Normal true else looseEq version versionLast)
  else
    bindC (looseEq version (PString "master")) (fun m =>
      if m then Normal true
      else bindC (lessEq versionFirst version) (fun a =>
        if a then Normal true else lessEq versionLast version)).

Definition visibilityOf (version delta : JsValue) (e : Element) : Completion bool :=
  computeVisibility version delta
    (attributeOf e dataVersionFirst) (attributeOf e dataVersionLast).

(** The class list after the [if (show)] statement. *)
Definition setVisible (visible : bool) (e : Element) : Element :=
  withClassList (if visible then tokensRemove "hidden" else tokensAdd "hidden") e.

(** One turn of the loop of [filterApply] on the element it refers to. *)
Definition applyTo (version delta : JsValue) (e : Element) : Completion Element :=
  bindC (visibilityOf version delta e) (fun visible => Normal (setVisible visible e)).

(** Delta mode with a version that is a string: the version is the value
    of one of the two attributes. *)
Definition deltaMatch (version : string) (e : Element) : bool :=
  bool_decide (attributes e !! dataVersionFirst = Some version) ||
  bool_decide (attributes e !! dataVersionLast = Some version).

(** The same element, up to its class list. *)
Definition sameElement (e e' : Element) : Prop :=
  localName e' = localName e /\ attributes e' = attributes e.

(** The candidates of the index page script: the tagged list items. *)
Definition taggedItem (e : Element) : bool := listItem e && tagged e.

(** [Shows candidate rule before r]: the call that gave [r] on the document
    [before] completed normally, kept every element in its place up to its
    class list, and left every candidate of the resulting document visible
    (without the [hidden] class) exactly when [rule] holds of it. *)
Definition Shows (candidate : Element -> bool) (rule : Element -> Prop)
  (before : Document) (r : Completion unit * Document) : Prop :=
  r.1 = Normal tt /\
  Forall2 sameElement (nodes before) (nodes r.2) /\
  forall e, e ∈ nodes r.2 -> candidate e = true -> (isHidden e = false <-> rule e).

(** The [hidden] class of a tagged element is on a list item: the state of
    an index page whose [hidden] classes all come from its own filter. *)
Definition hiddenOnlyItems (d : Document) : Prop :=
  forall e, e ∈ nodes d -> tagged e = true -> isHidden e = true -> listItem e = true.

(** Every tagged element is a list item. *)
Definition taggedAreItems (d : Document) : Prop :=
  forall e, e ∈ nodes d -> tagged e = true -> listItem e = true.

(** The message posted last to a window. *)
Definition last_message (queue : option (list JsValue)) : option JsValue :=
  queue ≫= last.

(** The messages the index page sends to the frame. *)
Definition applyMessage (version delta : JsValue) : JsValue :=
  VObject [("method", VString "filterApply"); ("version", version); ("delta", delta)].

Definition clearMessage : JsValue := VObject [("method", VString "filterClear")].

(** One turn of the loop of [filterClear]. *)
Definition clear (e : Element) : Completion Element :=
  Normal (withClassList (tokensRemove "hidden") e).

(** A loop over the elements that match, seen as one pass over the
    document: the elements before the first failure are replaced, and the
    failure, if any, is the completion. *)
Fixpoint scan (selectors : list CompoundSelector) (f : Element -> Completion Element)
  (l : list Element) : Completion unit * list Element :=
  match l with
  | [] => (Normal tt, [])
  | e :: rest =>
      if matchesAny selectors e then
        match f e with
        | Normal e' =>
            let '(c, rest') := scan selectors f rest in (c, e' :: rest')
        | Throw x => (Throw x, e :: rest)
        end
      else
        let '(c, rest') := scan selectors f rest in (c, e :: rest')
  end.

End Visibility.

(** ** Sample documents *)

Module Samples.
Import Js Dom Visibility.

Definition element (name : string) (attrs : list (string * string))
  (classes : list string) : Element :=
  mkElement name (list_to_map attrs) classes.

(** [<li data-version-first="2.0" class="hidden">] *)
Definition since20 : Element :=
  element "li" [("data-version-first", "2.0")] ["hidden"].

(** [<li data-version-first="1.0" class="hidden">] *)
Definition since10 : Element :=
  element "li" [("data-version-first", "1.0")] ["hidden"].

(** [<li data-version-first="1.0" data-version-last="1.2">] *)
Definition from10to12 : Element :=
  element "li" [("data-version-first", "1.0"); ("data-version-last", "1.2")] [].

(** [<li class="hidden">] *)
Definition untaggedItem : Element := element "li" [] ["hidden"].

(** A class page, shown in the frame. *)
Definition classPage (l : list Element) : Document :=
  mkDocument l None None None None [].

(** An index page with its frame and without its controls. *)
Definition indexPage (l : list Element) : Document :=
  mkDocument l None None None (Some []) [].

(** An index page whose controls are there, the selector showing
    [version]; no change handler is bound yet. *)
Definition loadingIndexPage (version : string) (l : list Element) : Document :=
  mkDocument l
    (Some (mkFormControl version false false None))
    (Some (mkFormControl "on" false false None))
    (Some (element "label" [] []))
    (Some []) [].

Definition getFilterMessage : JsValue := VObject [("method", VString "getFilter")].

(** A class page with two tagged items and an untagged one. *)
Definition classSample : Document := classPage [since10; from10to12; untaggedItem].

(** An index page with a tagged item and an untagged one. *)
Definition indexSample : Document := indexPage [since20; untaggedItem].

(** A class page and an index page with one hidden tagged item. *)
Definition hiddenClassPage : Document := classPage [since20].
Definition hiddenIndexPage : Document := indexPage [since20].

(** An index page that is still loading. *)
Definition loadingSample : Document := loadingIndexPage "1.2" [since20; from10to12].

(** A [method] that is an array, and a message with it. *)
Definition arrayMethod : JsValue := VArray [VString "filterClear"].
Definition arrayMessage : JsValue := VObject [("method", arrayMethod)].

(** A message with a method no script knows. *)
Definition otherMessage : JsValue :=
  VObject [("method", VString "filterclear"); ("version", VString "1.0")].

(** [<div data-version-first="1.0" class="hidden">] in an index page. *)
Definition taggedBlockPage : Document :=
  indexPage [element "div" [("data-version-first", "1.0")] ["hidden"]].

(** [<div data-version-first="2.0">], visible, in an index page. *)
Definition visibleBlockPage : Document :=
  indexPage [element "div" [("data-version-first", "2.0")] []].

(** A [filterApply] message without its two fields. *)
Definition bareApplyMessage : JsValue := VObject [("method", VString "filterApply")].

End Samples.

(** ** The two pages together *)

Module Protocol.
Import Js Dom Visibility Samples.
Local Open Scope script_scope.

(** A listener run on each message of a queue, oldest first.  Each message
    is an event of its own: a run that throws does not keep the later
    messages from being handled, on the document as that run left it.  The
    completion is normal when every run completed normally, and is the
    first exception otherwise. *)
Fixpoint handleAll (listener : JsValue -> Script unit) (messages : list JsValue)
  : Script unit :=
  match messages with
  | [] => ret tt
  | message :: rest =>
      fun d =>
        let '(c, d') := listener message d in
        let '(c', d'') := handleAll listener rest d' in
        (match c with Normal _ => c' | Throw e => Throw e end, d'')
  end.

(** The controls of the index page and the messages for the parent are the
    same in both documents. *)
Definition sameControls (d d' : Document) : Prop :=
  tags d' = tags d /\
  viewModeDelta d' = viewModeDelta d /\
  viewModeDeltaLbl d' = viewModeDeltaLbl d /\
  parent d' = parent d.

(** Element by element, the same element with the same [hidden] flag where
    it is a candidate. *)
Definition sameFlags (candidate : Element -> bool) (l l' : list Element) : Prop :=
  Forall2 (fun e e' => sameElement e e' /\
                       (candidate e = true -> isHidden e' = isHidden e)) l l'.

(** The element at position [i] of the document is there and does not carry
    the [hidden] class. *)
Definition visibleAt (d : Document) (i : nat) : bool :=
  match nodes d !! i with
  | Some e => negb (isHidden e)
  | None => false
  end.

(** The value of [show] in cumulative mode for a version that is a string;
    the comparison never throws there. *)
Definition cumulativeShow (version : string) (e : Element) : bool :=
  match visibilityOf (VString version) (VBool false) e with
  | Normal visible => visible
  | Throw _ => false
  end.

(** The value of [show] for a version that is a string and a delta that is
    a boolean. *)
Definition showOf (version : string) (delta : bool) (e : Element) : bool :=
  if delta then deltaMatch version e else cumulativeShow version e.

(** One turn of the loops of the index page, on any element: a tagged list
    item is filtered, or cleared, and another element is left alone. *)
Definition applyOne (version : string) (delta : bool) (e : Element) : Element :=
  if taggedItem e then setVisible (showOf version delta e) e else e.

Definition clearOne (e : Element) : Element :=
  if taggedItem e then withClassList (tokensRemove "hidden") e else e.

(** The value of [null <= version]: the comparison, as numbers, of +0 with
    the number the version denotes. *)
Definition nullLessEq (version : string) : bool :=
  match lessEq PNull (VString version) with
  | Normal b => b
  | Throw _ => false
  end.

(** The two comparisons of the cumulative branch are comparisons of strings
    or are false: both attributes are there, or [null <= version] is
    false (the version is not a numeric literal of a number from 0 up). *)
Definition comparesAsStrings (version : string) (e : Element) : bool :=
  (hasAttribute e dataVersionFirst && hasAttribute e dataVersionLast)
  || negb (nullLessEq version).

(** The version is master, or an attribute that is there is at most the
    version in the lexicographic order of strings. *)
Definition lexicographicRule (version : string) (e : Element) : Prop :=
  version = "master" \/
  (exists a, attributes e !! "data-version-first" = Some a /\
             String.leb a version = true) \/
  (exists b, attributes e !! "data-version-last" = Some b /\
             String.leb b version = true).

(** The index page once the toggle is enabled and its label shown, as the
    branch of [update] for a version other than master leaves them. *)
Definition withToggleShown (t : FormControl) (lbl : Element) (d : Document) : Document :=
  setViewModeDeltaLbl (Some (withClassList (tokensRemove "hidden") lbl))
    (setViewModeDelta (Some (withDisabled false t)) d).

(** A select that shows [version], a toggle in a given state and the hidden
    label of a toggle; the change handlers are bound. *)
Definition selectOf (version : string) : FormControl :=
  mkFormControl version false false (Some CallUpdate).

Definition toggleOf (isDisabled isChecked : bool) : FormControl :=
  mkFormControl "on" isDisabled isChecked (Some CallUpdate).

Definition hiddenLabel : Element := element "label" [] ["hidden"].

(** An index page with its controls and its frame. *)
Definition readyIndexPage (version : string) (isDisabled isChecked : bool)
  (l : list Element) : Document :=
  mkDocument l
    (Some (selectOf version))
    (Some (toggleOf isDisabled isChecked))
    (Some hiddenLabel)
    (Some []) [].

(** Version 1.2 with the toggle checked but disabled, and master with the
    toggle checked and enabled. *)
Definition readyOther : Document :=
  readyIndexPage "1.2" true true [since20; from10to12].

Definition readyMaster : Document :=
  readyIndexPage "master" false true [since20; from10to12].

(** [<li data-version-first="1.0" data-version-last="1.2" class="hidden x">] *)
Definition hiddenFirst : Element :=
  element "li" [("data-version-first", "1.0"); ("data-version-last", "1.2")]
    ["hidden"; "x"].

(** An index page without its frame. *)
Definition framelessPage : Document :=
  mkDocument [since20; from10to12] None None None None [].

End Protocol.

(** ** Properties *)

Import Js Dom Visibility Samples.
Local Open Scope script_scope.

(** *** The operators *)

(** [<] on strings is the lexicographic order on code units. *)
Lemma String_lessThan_ltb (x y : string) : String_lessThan x y = String.ltb x y.
Proof.
  unfold String.ltb. revert y.
  induction x as [|c x IH]; intros [|d y]; simpl; try done.
  unfold Ascii.compare, codeUnit. rewrite IH.
  destruct (N.compare_spec (N_of_ascii c) (N_of_ascii d)) as [He|Hl|Hg].
  - by rewrite He, Z.eqb_refl.
  - rewrite (proj2 (Z.eqb_neq _ _)) by lia. apply Z.ltb_lt. lia.
  - rewrite (proj2 (Z.eqb_neq _ _)) by lia. apply Z.ltb_ge. lia.
Qed.

Example StringToNumber_decimal :
  StringToNumber "1.2" = Finite false (5404319552844595 # 4503599627370496).
Proof. reflexivity. Qed.

Example StringToNumber_release : StringToNumber "5.2.0" = NaN.
Proof. reflexivity. Qed.

Example StringToNumber_master : StringToNumber "master" = NaN.
Proof. reflexivity. Qed.

Example StringToNumber_trimmed_hex : StringToNumber "  0x1F " = Finite false 31.
Proof. reflexivity. Qed.

Example StringToNumber_tie_to_even :
  StringToNumber "9007199254740993" = Finite false 9007199254740992.
Proof. reflexivity. Qed.

Example StringToNumber_underflow : StringToNumber "-1e-400" = Finite true 0.
Proof. reflexivity. Qed.

Example StringToNumber_overflow : StringToNumber "1.7976931348623159e308" = Infinity false.
Proof. reflexivity. Qed.

Example looseEq_array :
  looseEq (VArray [VString "a"; VNull; VArray [VBool true]]) (PString "a,,true")
    = Normal true.
Proof. reflexivity. Qed.

Example looseEq_shadowed_toString :
  looseEq (VObject [("toString", VNull)]) (PString "[object Object]") = Throw TypeError.
Proof. reflexivity. Qed.

Example looseEq_undefined_null : looseEq VUndefined PNull = Normal true.
Proof. reflexivity. Qed.

Example lessEq_not_numeric_order : lessEq (PString "9") (VString "10") = Normal false.
Proof. reflexivity. Qed.

(** *** Documents and loops *)

Lemma setNodes_nodes (d : Document) : setNodes (nodes d) d = d.
Proof. by destruct d. Qed.

Section Loop.
Variable selectors : list CompoundSelector.
Variable body : nat -> Script unit.
Variable f : Element -> Completion Element.

(** The body of the loop replaces the element it refers to by [f] of it,
    or throws what [f] throws and leaves the document as it is. *)
Hypothesis body_spec : forall (i : nat) (d : Document) (e : Element),
  nodes d !! i = Some e ->
  body i d =
    match f e with
    | Normal e' => (Normal tt, setNodes (<[i := e']> (nodes d)) d)
    | Throw x => (Throw x, d)
    end.

Lemma forEach_scan_from (suffix : list Element) :
  forall (prefix : list Element) (d : Document),
    nodes d = (prefix ++ suffix)%list ->
    forEach (matchingFrom selectors (length prefix) suffix) body d =
      ((scan selectors f suffix).1,
       setNodes (prefix ++ (scan selectors f suffix).2)%list d).
Proof.
  induction suffix as [|e rest IH]; intros prefix d Hd; simpl.
  - rewrite <- Hd. by rewrite setNodes_nodes.
  - destruct (matchesAny selectors e) eqn:Hm.
    + simpl. unfold bind at 1.
      assert (Hi : nodes d !! length prefix = Some e).
      { rewrite Hd. by rewrite list_lookup_middle. }
      rewrite (body_spec _ _ _ Hi).
      destruct (f e) as [e'|x] eqn:Hf.
      * specialize (IH (prefix ++ [e'])%list
                      (setNodes (<[length prefix := e']> (nodes d)) d)).
        rewrite length_app in IH. simpl in IH.
        replace (length prefix + 1) with (S (length prefix)) in IH by lia.
        rewrite IH.
        -- destruct (scan selectors f rest) as [c rest']. simpl.
           by rewrite <- app_assoc.
        -- simpl. rewrite Hd.
           replace (length prefix) with (length prefix + 0) by lia.
           rewrite insert_app_r. simpl. by rewrite <- app_assoc.
      * simpl. rewrite <- Hd. by rewrite setNodes_nodes.
    + specialize (IH (prefix ++ [e])%list d).
      rewrite length_app in IH. simpl in IH.
      replace (length prefix + 1) with (S (length prefix)) in IH by lia.
      rewrite IH.
      * destruct (scan selectors f rest) as [c rest']. simpl.
        by rewrite <- app_assoc.
      * rewrite Hd. by rewrite <- app_assoc.
Qed.

(** A query followed by the loop over its result. *)
Lemma forEach_scan (d d' : Document) :
  nodes d' = nodes d ->
  forEach (matchingFrom selectors 0 (nodes d)) body d' =
    ((scan selectors f (nodes d)).1,
     setNodes (scan selectors f (nodes d)).2 d').
Proof.
  intros Hn. apply (forEach_scan_from (nodes d) [] d'). by rewrite Hn.
Qed.
End Loop.

(** *** One pass over the document *)

Section Scan.
Variable selectors : list CompoundSelector.
Variable f : Element -> Completion Element.

(** An element that does not match is left as it is. *)
Lemma scan_untouched (l : list Element) (i : nat) (e : Element) :
  l !! i = Some e -> matchesAny selectors e = false ->
  (scan selectors f l).2 !! i = Some e.
Proof.
  revert i. induction l as [|a rest IH]; intros i Hi Hm; [done|].
  simpl. destruct i as [|i]; simpl in Hi.
  - injection Hi as ->. rewrite Hm.
    by destruct (scan selectors f rest).
  - specialize (IH i Hi Hm).
    destruct (matchesAny selectors a); [destruct (f a)|];
      try destruct (scan selectors f rest); simpl in *; done.
Qed.

(** When [f] never throws the pass replaces every matching element. *)
Lemma scan_total (g : Element -> Element) (l : list Element) :
  (forall e, f e = Normal (g e)) ->
  scan selectors f l =
    (Normal tt, (fun e => if matchesAny selectors e then g e else e) <$> l).
Proof.
  intros Hf. induction l as [|e rest IH]; simpl; [done|].
  rewrite IH, Hf. by destruct (matchesAny selectors e).
Qed.

(** A second pass changes nothing when [f] leaves its own results, and
    what the selectors look at, as they are. *)
Lemma scan_idempotent (l : list Element) :
  (forall e e', f e = Normal e' ->
     f e' = Normal e' /\ matchesAny selectors e' = matchesAny selectors e) ->
  scan selectors f (scan selectors f l).2 = scan selectors f l.
Proof.
  intros Hf. induction l as [|e rest IH]; simpl; [done|].
  destruct (matchesAny selectors e) eqn:Hm.
  - destruct (f e) as [e'|x] eqn:He.
    + destruct (Hf _ _ He) as [He' Hm'].
      destruct (scan selectors f rest) as [c rest'] eqn:Hs. simpl in *.
      by rewrite Hm', Hm, He', IH.
    + simpl. by rewrite Hm, He.
  - destruct (scan selectors f rest) as [c rest'] eqn:Hs. simpl in *.
    by rewrite Hm, IH.
Qed.
End Scan.

(** *** The loops of the two scripts *)

Lemma classList_remove_spec (i : nat) (d : Document) (e : Element) :
  nodes d !! i = Some e ->
  classList_remove i "hidden" d =
    match clear e with
    | Normal e' => (Normal tt, setNodes (<[i := e']> (nodes d)) d)
    | Throw x => (Throw x, d)
    end.
Proof. intros Hi. unfold classList_remove, updateClassList. by rewrite Hi. Qed.

Arguments looseEq : simpl never.
Arguments lessEq : simpl never.
Arguments attributeOf : simpl never.

Lemma getAttribute_spec (i : nat) (name : string) (d : Document) (e : Element) :
  nodes d !! i = Some e ->
  getAttribute i name d = (Normal (attributeOf e name), d).
Proof. intros Hi. unfold getAttribute. by rewrite Hi. Qed.

(** Runs the expression that computes [show] on an element that is there. *)
Ltac run_show H :=
  unfold orElse, bind, lift, ret;
  repeat (simpl; rewrite ?(getAttribute_spec _ _ _ _ H); simpl; try done;
          match goal with
          | |- context [bindC ?c _] => destruct c as [[]|]
          end).

Lemma Selector_show_spec (version delta : JsValue) (i : nat) (d : Document) (e : Element) :
  nodes d !! i = Some e ->
  Selector.show version delta i d = (visibilityOf version delta e, d).
Proof.
  intros Hi.
  unfold Selector.show, visibilityOf, computeVisibility, dataVersionFirst, dataVersionLast.
  destruct (ToBoolean delta); run_show Hi.
Qed.

Lemma Frame_show_spec (version delta : JsValue) (i : nat) (d : Document) (e : Element) :
  nodes d !! i = Some e ->
  Frame.show version delta i d = (visibilityOf version delta e, d).
Proof.
  intros Hi.
  unfold Frame.show, visibilityOf, computeVisibility, dataVersionFirst, dataVersionLast.
  destruct (ToBoolean delta); run_show Hi.
Qed.

Lemma Selector_body_spec (version delta : JsValue) (i : nat) (d : Document) (e : Element) :
  nodes d !! i = Some e ->
  (visible <- Selector.show version delta i ;;
   if visible then classList_remove i "hidden" else classList_add i "hidden") d =
    match applyTo version delta e with
    | Normal e' => (Normal tt, setNodes (<[i := e']> (nodes d)) d)
    | Throw x => (Throw x, d)
    end.
Proof.
  intros Hi. unfold bind at 1. rewrite (Selector_show_spec _ _ _ _ _ Hi).
  unfold applyTo. destruct (visibilityOf version delta e) as [[]|]; simpl; try done;
    unfold classList_remove, classList_add, updateClassList; by rewrite Hi.
Qed.

Lemma Frame_body_spec (version delta : JsValue) (i : nat) (d : Document) (e : Element) :
  nodes d !! i = Some e ->
  (visible <- Frame.show version delta i ;;
   if visible then classList_remove i "hidden" else classList_add i "hidden") d =
    match applyTo version delta e with
    | Normal e' => (Normal tt, setNodes (<[i := e']> (nodes d)) d)
    | Throw x => (Throw x, d)
    end.
Proof.
  intros Hi. unfold bind at 1. rewrite (Frame_show_spec _ _ _ _ _ Hi).
  unfold applyTo. destruct (visibilityOf version delta e) as [[]|]; simpl; try done;
    unfold classList_remove, classList_add, updateClassList; by rewrite Hi.
Qed.

Lemma Frame_filterClear_scan (d : Document) :
  Frame.filterClear d =
    ((scan Frame.taggedSelectors clear (nodes d)).1,
     setNodes (scan Frame.taggedSelectors clear (nodes d)).2 d).
Proof.
  unfold Frame.filterClear, bind, querySelectorAll.
  by apply forEach_scan; [apply classList_remove_spec|].
Qed.

Lemma Frame_filterApply_scan (version delta : JsValue) (d : Document) :
  Frame.filterApply version delta d =
    ((scan Frame.taggedSelectors (applyTo version delta) (nodes d)).1,
     setNodes (scan Frame.taggedSelectors (applyTo version delta) (nodes d)).2 d).
Proof.
  unfold Frame.filterApply, bind at 1, querySelectorAll.
  by apply forEach_scan; [apply Frame_body_spec|].
Qed.

Lemma Selector_filterClear_scan (d : Document) :
  Selector.filterClear d =
    match iframeClass d with
    | Some queue =>
        ((scan Selector.taggedSelectors clear (nodes d)).1,
         setNodes (scan Selector.taggedSelectors clear (nodes d)).2
           (setIframeClass (Some (queue ++ [clearMessage])%list) d))
    | None => (Throw TypeError, d)
    end.
Proof.
  unfold Selector.filterClear, bind, querySelectorAll, postMessageToFrame.
  destruct (iframeClass d) as [queue|]; [|done].
  by apply forEach_scan; [apply classList_remove_spec|].
Qed.

Lemma Selector_filterApply_scan (version delta : JsValue) (d : Document) :
  Selector.filterApply version delta d =
    match iframeClass d with
    | Some queue =>
        ((scan Selector.taggedSelectors (applyTo version delta) (nodes d)).1,
         setNodes (scan Selector.taggedSelectors (applyTo version delta) (nodes d)).2
           (setIframeClass (Some (queue ++ [applyMessage version delta])%list) d))
    | None => (Throw TypeError, d)
    end.
Proof.
  unfold Selector.filterApply, bind at 1, querySelectorAll.
  unfold bind at 1, postMessageToFrame.
  destruct (iframeClass d) as [queue|]; [|done].
  by apply forEach_scan; [apply Selector_body_spec|].
Qed.

(** *** Elements *)

Lemma matchesAny_frame (e : Element) :
  matchesAny Frame.taggedSelectors e = tagged e.
Proof.
  unfold matchesAny, Frame.taggedSelectors, matchesSelector, tagged,
    dataVersionFirst, dataVersionLast.
  simpl. by rewrite orb_false_r.
Qed.

Lemma matchesAny_selector (e : Element) :
  matchesAny Selector.taggedSelectors e = taggedItem e.
Proof.
  unfold matchesAny, Selector.taggedSelectors, matchesSelector, taggedItem, tagged, listItem,
    dataVersionFirst, dataVersionLast.
  simpl. rewrite orb_false_r. by destruct (String.eqb (localName e) "li").
Qed.

Lemma contains_tokensRemove (token : string) (tokens : list string) :
  contains (tokensRemove token tokens) token = false.
Proof.
  unfold contains, tokensRemove. apply bool_decide_eq_false.
  rewrite list_elem_of_filter. tauto.
Qed.

Lemma contains_tokensAdd (token : string) (tokens : list string) :
  contains (tokensAdd token tokens) token = true.
Proof.
  unfold tokensAdd. destruct (contains tokens token) eqn:Hc; [done|].
  unfold contains. apply bool_decide_eq_true. set_solver.
Qed.

Lemma tokensRemove_idempotent (token : string) (tokens : list string) :
  tokensRemove token (tokensRemove token tokens) = tokensRemove token tokens.
Proof.
  unfold tokensRemove. induction tokens as [|t rest IH]; [done|].
  rewrite filter_cons. case_decide as Ht; [|done].
  rewrite filter_cons. case_decide; [|done]. by rewrite IH.
Qed.

Lemma tokensAdd_idempotent (token : string) (tokens : list string) :
  tokensAdd token (tokensAdd token tokens) = tokensAdd token tokens.
Proof.
  unfold tokensAdd at 1. by rewrite contains_tokensAdd.
Qed.

Lemma isHidden_setVisible (visible : bool) (e : Element) :
  isHidden (setVisible visible e) = negb visible.
Proof.
  unfold isHidden, setVisible. destruct visible; simpl.
  - apply contains_tokensRemove.
  - apply contains_tokensAdd.
Qed.

Lemma setVisible_idempotent (visible : bool) (e : Element) :
  setVisible visible (setVisible visible e) = setVisible visible e.
Proof.
  unfold setVisible, withClassList. destruct visible; simpl; f_equal.
  - apply tokensRemove_idempotent.
  - apply tokensAdd_idempotent.
Qed.

(** The loop bodies only write the class list. *)
Lemma applyTo_keeps (version delta : JsValue) (e e' : Element) :
  applyTo version delta e = Normal e' ->
  localName e' = localName e /\ attributes e' = attributes e.
Proof.
  unfold applyTo. destruct (visibilityOf version delta e) as [b|]; [|done].
  simpl. by intros [= <-].
Qed.

Lemma applyTo_idempotent (version delta : JsValue) (e e' : Element) :
  applyTo version delta e = Normal e' -> applyTo version delta e' = Normal e'.
Proof.
  unfold applyTo, visibilityOf, attributeOf.
  destruct (computeVisibility _ _ _ _) as [b|] eqn:Hv; [|done].
  simpl. intros [= <-]. simpl. rewrite Hv. simpl.
  by rewrite setVisible_idempotent.
Qed.

Lemma matchesAny_keeps (selectors : list CompoundSelector) (e e' : Element) :
  localName e' = localName e -> attributes e' = attributes e ->
  matchesAny selectors e' = matchesAny selectors e.
Proof.
  intros Hn Ha. unfold matchesAny, matchesSelector, hasAttribute.
  by rewrite Hn, Ha.
Qed.

Lemma applyTo_scan_idempotent (selectors : list CompoundSelector) (version delta : JsValue)
  (l : list Element) :
  scan selectors (applyTo version delta)
    (scan selectors (applyTo version delta) l).2 =
  scan selectors (applyTo version delta) l.
Proof.
  apply scan_idempotent. intros e e' He. split.
  - by apply (applyTo_idempotent _ _ e).
  - destruct (applyTo_keeps _ _ _ _ He). by apply matchesAny_keeps.
Qed.

(** *** Filters whose visibility rule does not throw *)

Lemma Frame_filterClear_total (d : Document) :
  Frame.filterClear d =
    (Normal tt,
     setNodes ((fun e => if tagged e then withClassList (tokensRemove "hidden") e else e)
                 <$> nodes d) d).
Proof.
  rewrite Frame_filterClear_scan.
  rewrite (scan_total _ _ (withClassList (tokensRemove "hidden"))) by done.
  cbn [fst snd]. do 2 f_equal. apply list_fmap_ext. intros _ e _.
  by rewrite matchesAny_frame.
Qed.

Lemma Selector_filterClear_total (d : Document) (queue : list JsValue) :
  iframeClass d = Some queue ->
  Selector.filterClear d =
    (Normal tt,
     setNodes ((fun e => if taggedItem e
                         then withClassList (tokensRemove "hidden") e else e)
                 <$> nodes d)
       (setIframeClass (Some (queue ++ [clearMessage])%list) d)).
Proof.
  intros Hq. rewrite Selector_filterClear_scan, Hq.
  rewrite (scan_total _ _ (withClassList (tokensRemove "hidden"))) by done.
  cbn [fst snd]. do 2 f_equal. apply list_fmap_ext. intros _ e _.
  by rewrite matchesAny_selector.
Qed.

Lemma Frame_filterApply_total (version delta : JsValue) (vis : Element -> bool)
  (d : Document) :
  (forall e, visibilityOf version delta e = Normal (vis e)) ->
  Frame.filterApply version delta d =
    (Normal tt,
     setNodes ((fun e => if tagged e then setVisible (vis e) e else e) <$> nodes d) d).
Proof.
  intros Hv. rewrite Frame_filterApply_scan.
  rewrite (scan_total _ _ (fun e => setVisible (vis e) e)).
  - cbn [fst snd]. do 2 f_equal. apply list_fmap_ext. intros _ e _.
    by rewrite matchesAny_frame.
  - intros e. unfold applyTo. by rewrite Hv.
Qed.

Lemma Selector_filterApply_total (version delta : JsValue) (vis : Element -> bool)
  (d : Document) (queue : list JsValue) :
  (forall e, visibilityOf version delta e = Normal (vis e)) ->
  iframeClass d = Some queue ->
  Selector.filterApply version delta d =
    (Normal tt,
     setNodes ((fun e => if taggedItem e then setVisible (vis e) e else e)
                 <$> nodes d)
       (setIframeClass (Some (queue ++ [applyMessage version delta])%list) d)).
Proof.
  intros Hv Hq. rewrite Selector_filterApply_scan, Hq.
  rewrite (scan_total _ _ (fun e => setVisible (vis e) e)).
  - cbn [fst snd]. do 2 f_equal. apply list_fmap_ext. intros _ e _.
    by rewrite matchesAny_selector.
  - intros e. unfold applyTo. by rewrite Hv.
Qed.

(** *** The operators on the values a filter meets *)

Lemma looseEq_string_attribute (version : string) (e : Element) (name : string) :
  looseEq (VString version) (attributeOf e name) =
    Normal (bool_decide (attributes e !! name = Some version)).
Proof.
  unfold attributeOf. destruct (attributes e !! name) as [s|]; unfold looseEq;
    cbn [ToPrimitive bindC looseEqPrimitive].
  - f_equal. destruct (String.eqb_spec version s) as [->|Hne].
    + by rewrite bool_decide_eq_true_2.
    + rewrite bool_decide_eq_false_2; [done|]. by intros [= ->].
  - by rewrite bool_decide_eq_false_2.
Qed.

Lemma visibilityOf_delta (version : string) (e : Element) :
  visibilityOf (VString version) (VBool true) e = Normal (deltaMatch version e).
Proof.
  unfold visibilityOf, computeVisibility, deltaMatch.
  cbn [ToBoolean]. rewrite !looseEq_string_attribute. cbn [bindC].
  by destruct (bool_decide (attributes e !! dataVersionFirst = Some version)).
Qed.

Lemma visibilityOf_master (delta : JsValue) (e : Element) :
  ToBoolean delta = false ->
  visibilityOf (VString "master") delta e = Normal true.
Proof. intros Hd. unfold visibilityOf, computeVisibility. by rewrite Hd. Qed.

(** *** What stays and what is hidden after a filter *)

Lemma sameElement_replaced (candidate : Element -> bool) (g : Element -> Element)
  (l : list Element) :
  (forall e, sameElement e (g e)) ->
  Forall2 sameElement l ((fun e => if candidate e then g e else e) <$> l).
Proof.
  intros Hg. apply Forall2_fmap_r, Forall_Forall2_diag, Forall_forall.
  intros e _. simpl. destruct (candidate e); [apply Hg|by split].
Qed.

Lemma sameElement_withClassList (f : list string -> list string) (e : Element) :
  sameElement e (withClassList f e).
Proof. done. Qed.

Lemma tagged_same (e e' : Element) : sameElement e e' -> tagged e' = tagged e.
Proof. intros [_ Ha]. unfold tagged, hasAttribute. by rewrite Ha. Qed.

Lemma listItem_same (e e' : Element) : sameElement e e' -> listItem e' = listItem e.
Proof. intros [Hn _]. unfold listItem. by rewrite Hn. Qed.

(** A candidate found after the pass is the image of a candidate. *)
Lemma elem_of_replaced (candidate : Element -> bool) (g : Element -> Element)
  (l : list Element) (e' : Element) :
  (forall e, candidate (g e) = candidate e) ->
  e' ∈ (fun e => if candidate e then g e else e) <$> l ->
  candidate e' = true ->
  exists e, e ∈ l /\ candidate e = true /\ e' = g e.
Proof.
  intros Hg Hin Hc. apply list_elem_of_fmap in Hin as (e & -> & He).
  exists e. destruct (candidate e) eqn:Hce; [done|congruence].
Qed.

Lemma taggedItem_same (e e' : Element) : sameElement e e' -> taggedItem e' = taggedItem e.
Proof.
  intros H. unfold taggedItem. by rewrite (tagged_same e), (listItem_same e).
Qed.

Lemma Shows_replaced (candidate : Element -> bool) (vis : Element -> bool)
  (rule : Element -> Prop) (d d' : Document) :
  (forall e e', sameElement e e' -> candidate e' = candidate e) ->
  (forall e, rule (setVisible (vis e) e) <-> vis e = true) ->
  Shows candidate rule d
    (Normal tt,
     setNodes ((fun e => if candidate e then setVisible (vis e) e else e) <$> nodes d) d').
Proof.
  intros Hc Hr. split; [done|]. split.
  - apply (sameElement_replaced candidate (fun e => setVisible (vis e) e)).
    intros e. apply sameElement_withClassList.
  - cbn [fst snd nodes setNodes]. intros e' Hin Hce'.
    apply (elem_of_replaced candidate (fun e => setVisible (vis e) e)) in Hin
      as (e & _ & _ & ->); [|intros e; apply Hc, sameElement_withClassList|done].
    rewrite isHidden_setVisible, Hr. by destruct (vis e).
Qed.

(** On the index page the elements that are not list items are left alone;
    when the rule already holds of the tagged ones among them, it holds of
    every tagged element afterwards. *)
Lemma Shows_replaced_items (vis : Element -> bool) (rule : Element -> Prop)
  (d d' : Document) :
  (forall e, rule (setVisible (vis e) e) <-> vis e = true) ->
  (forall e, e ∈ nodes d -> tagged e = true -> listItem e = false ->
     (isHidden e = false <-> rule e)) ->
  Shows tagged rule d
    (Normal tt,
     setNodes ((fun e => if taggedItem e then setVisible (vis e) e else e) <$> nodes d) d').
Proof.
  intros Hr Hrest. split; [done|]. split.
  - apply (sameElement_replaced taggedItem (fun e => setVisible (vis e) e)).
    intros e. apply sameElement_withClassList.
  - cbn [fst snd nodes setNodes]. intros e' Hin Ht.
    apply list_elem_of_fmap in Hin as (e & -> & He).
    destruct (taggedItem e) eqn:Hti.
    + rewrite isHidden_setVisible, Hr. by destruct (vis e).
    + apply Hrest; [done|done|].
      unfold taggedItem in Hti. rewrite Ht, andb_true_r in Hti. done.
Qed.

Lemma hiddenOnlyItems_rest (d : Document) (e : Element) :
  hiddenOnlyItems d ->
  e ∈ nodes d -> tagged e = true -> listItem e = false ->
  (isHidden e = false <-> True).
Proof.
  intros Hd He Ht Hl. split; [done|]. intros _.
  destruct (isHidden e) eqn:Hh; [|done].
  specialize (Hd e He Ht Hh). congruence.
Qed.

(** The filters of the index page keep [hiddenOnlyItems], however they
    complete. *)
Lemma scan_Forall (selectors : list CompoundSelector) (f : Element -> Completion Element)
  (P : Element -> Prop) (l : list Element) :
  (forall e e', matchesAny selectors e = true -> f e = Normal e' -> P e') ->
  Forall P l -> Forall P (scan selectors f l).2.
Proof.
  intros Hf. induction 1 as [|e rest He Hrest IH]; [done|].
  cbn [scan]. destruct (matchesAny selectors e) eqn:Hm.
  - destruct (f e) as [e'|x] eqn:Hfe.
    + destruct (scan selectors f rest) as [c rest']. cbn [snd] in *.
      constructor; [by apply (Hf e)|done].
    + by constructor.
  - destruct (scan selectors f rest) as [c rest']. cbn [snd] in *.
    by constructor.
Qed.

Lemma hiddenOnlyItems_scan (f : Element -> Completion Element) (d d' : Document) :
  (forall e e', f e = Normal e' -> sameElement e e') ->
  hiddenOnlyItems d ->
  hiddenOnlyItems (setNodes (scan Selector.taggedSelectors f (nodes d)).2 d').
Proof.
  intros Hf Hd. unfold hiddenOnlyItems. cbn [nodes setNodes].
  apply (proj1 (Forall_forall
    (fun e => tagged e = true -> isHidden e = true -> listItem e = true) _)).
  apply scan_Forall; [|by apply Forall_forall].
  intros e e' Hm He _ _. rewrite matchesAny_selector in Hm.
  rewrite (listItem_same e e') by by apply Hf.
  unfold taggedItem in Hm. by apply andb_true_iff in Hm as [? _].
Qed.

Lemma hiddenOnlyItems_filterApply (version delta : JsValue) (d : Document) :
  hiddenOnlyItems d -> hiddenOnlyItems (Selector.filterApply version delta d).2.
Proof.
  intros Hd. rewrite Selector_filterApply_scan.
  destruct (iframeClass d); [|done].
  apply hiddenOnlyItems_scan; [|done]. apply applyTo_keeps.
Qed.

Lemma hiddenOnlyItems_filterClear (d : Document) :
  hiddenOnlyItems d -> hiddenOnlyItems (Selector.filterClear d).2.
Proof.
  intros Hd. rewrite Selector_filterClear_scan.
  destruct (iframeClass d); [|done].
  apply hiddenOnlyItems_scan; [|done]. by intros e e' [= <-].
Qed.

(** *** Clearing and applying a filter *)

(** C5. After [filterClear], whatever the class lists were before, no tagged
    element of the document carries the [hidden] class.  In a class page
    this holds of every element with one of the two attributes.  In the
    index page, whose frame is there to receive the message, it holds of
    every tagged list item, the elements its script selects, and of every
    tagged element when the [hidden] classes of the page come from its own
    filter ([hiddenOnlyItems], which [filterClear] and [filterApply]
    keep). *)
Theorem filterClear_restores_all :
  (forall d : Document,
     Shows tagged (fun _ => True) d (Frame.filterClear d)) /\
  (forall (d : Document) (queue : list JsValue),
     iframeClass d = Some queue ->
     Shows taggedItem (fun _ => True) d (Selector.filterClear d)) /\
  (forall (d : Document) (queue : list JsValue),
     iframeClass d = Some queue ->
     hiddenOnlyItems d ->
     Shows tagged (fun _ => True) d (Selector.filterClear d)).
Proof.
  split; [|split].
  - intros d. rewrite Frame_filterClear_total.
    apply (Shows_replaced tagged (fun _ => true)); [apply tagged_same|done].
  - intros d queue Hq. rewrite (Selector_filterClear_total d queue Hq).
    apply (Shows_replaced taggedItem (fun _ => true)); [apply taggedItem_same|done].
  - intros d queue Hq Hd. rewrite (Selector_filterClear_total d queue Hq).
    apply (Shows_replaced_items (fun _ => true)); [done|].
    intros e He Ht Hl. by apply (hiddenOnlyItems_rest d).
Qed.

Lemma hiddenOnlyItems_indexSample : hiddenOnlyItems indexSample.
Proof.
  intros e He _ _. unfold indexSample, indexPage in He. cbn [nodes] in He.
  apply elem_of_cons in He as [->|He]; [done|].
  apply elem_of_cons in He as [->|He]; [done|].
  by apply elem_of_nil in He.
Defined.

Lemma filterClear_restores_all_witness :
  Shows tagged (fun _ => True) classSample (Frame.filterClear classSample) /\
  iframeClass indexSample = Some [] /\
  hiddenOnlyItems indexSample /\
  Shows taggedItem (fun _ => True) indexSample (Selector.filterClear indexSample) /\
  Shows tagged (fun _ => True) indexSample (Selector.filterClear indexSample).
Proof.
  split; [apply (proj1 filterClear_restores_all)|].
  split; [reflexivity|].
  split; [exact hiddenOnlyItems_indexSample|].
  split.
  - apply (proj1 (proj2 filterClear_restores_all) indexSample []). reflexivity.
  - apply (proj2 (proj2 filterClear_restores_all) indexSample []);
      [reflexivity|exact hiddenOnlyItems_indexSample].
Defined.

(** C4, as stated, fails on the index page: its query is [li]-scoped, so a
    tagged element that is not a list item and carries [hidden] still
    carries it after [filterApply("master", false)]. *)
Lemma master_leaves_block_hidden :
  iframeClass taggedBlockPage = Some [] /\
  tagged <$> nodes taggedBlockPage = [true] /\
  (Selector.filterApply (VString "master") (VBool false) taggedBlockPage).1 = Normal tt /\
  isHidden <$> nodes (Selector.filterApply (VString "master") (VBool false)
                        taggedBlockPage).2 = [true] /\
  ~ Shows tagged (fun _ => True) taggedBlockPage
      (Selector.filterApply (VString "master") (VBool false) taggedBlockPage).
Proof.
  repeat (split; [reflexivity|]).
  intros (_ & _ & H).
  assert (Hn : nodes (Selector.filterApply (VString "master") (VBool false)
                        taggedBlockPage).2 = nodes taggedBlockPage) by reflexivity.
  rewrite Hn in H.
  specialize (H _ (list_elem_of_here _ _) eq_refl).
  pose proof (proj2 H I) as Hh. vm_compute in Hh. discriminate.
Qed.

(** C4, amended.  [filterApply("master", false)] leaves visible, whatever
    their two attributes and their class lists were, the elements it
    selects: every tagged element of a class page and every tagged list
    item of the index page; these are all the tagged elements of the index
    page when its [hidden] classes come from its own filter. *)
Theorem filterApply_master_shows_all :
  (forall d : Document,
     Shows tagged (fun _ => True) d
       (Frame.filterApply (VString "master") (VBool false) d)) /\
  (forall (d : Document) (queue : list JsValue),
     iframeClass d = Some queue ->
     Shows taggedItem (fun _ => True) d
       (Selector.filterApply (VString "master") (VBool false) d)) /\
  (forall (d : Document) (queue : list JsValue),
     iframeClass d = Some queue ->
     hiddenOnlyItems d ->
     Shows tagged (fun _ => True) d
       (Selector.filterApply (VString "master") (VBool false) d)).
Proof.
  split; [|split].
  - intros d. rewrite (Frame_filterApply_total _ _ (fun _ => true)).
    + apply (Shows_replaced tagged (fun _ => true)); [apply tagged_same|done].
    + intros e. by apply visibilityOf_master.
  - intros d queue Hq.
    rewrite (Selector_filterApply_total _ _ (fun _ => true) d queue); [| |done].
    + apply (Shows_replaced taggedItem (fun _ => true)); [apply taggedItem_same|done].
    + intros e. by apply visibilityOf_master.
  - intros d queue Hq Hd.
    rewrite (Selector_filterApply_total _ _ (fun _ => true) d queue); [| |done].
    + apply (Shows_replaced_items (fun _ => true)); [done|].
      intros e He Ht Hl. by apply (hiddenOnlyItems_rest d).
    + intros e. by apply visibilityOf_master.
Qed.

Lemma filterApply_master_shows_all_witness :
  Shows tagged (fun _ => True) classSample
    (Frame.filterApply (VString "master") (VBool false) classSample) /\
  iframeClass hiddenIndexPage = Some [] /\
  (forall e, e ∈ nodes hiddenIndexPage -> listItem e = true) /\
  Shows taggedItem (fun _ => True) hiddenIndexPage
    (Selector.filterApply (VString "master") (VBool false) hiddenIndexPage) /\
  Shows tagged (fun _ => True) hiddenIndexPage
    (Selector.filterApply (VString "master") (VBool false) hiddenIndexPage).
Proof.
  assert (Hli : forall e, e ∈ nodes hiddenIndexPage -> listItem e = true).
  { intros e He. unfold hiddenIndexPage, indexPage in He. cbn [nodes] in He.
    apply elem_of_cons in He as [->|He]; [reflexivity|].
    by apply elem_of_nil in He. }
  split; [apply (proj1 filterApply_master_shows_all)|].
  split; [reflexivity|].
  split; [exact Hli|].
  split.
  - apply (proj1 (proj2 filterApply_master_shows_all) hiddenIndexPage []). reflexivity.
  - apply (proj2 (proj2 filterApply_master_shows_all) hiddenIndexPage []);
      [reflexivity|].
    intros e He _ _. by apply Hli.
Defined.

(** C3, as stated, fails on the index page: its query is [li]-scoped, so a
    tagged element that is not a list item and is visible stays visible
    after [filterApply("1.0", true)], though neither of its attributes is
    ["1.0"]. *)
Lemma delta_leaves_block_visible :
  iframeClass visibleBlockPage = Some [] /\
  tagged <$> nodes visibleBlockPage = [true] /\
  (Selector.filterApply (VString "1.0") (VBool true) visibleBlockPage).1 = Normal tt /\
  isHidden <$> nodes (Selector.filterApply (VString "1.0") (VBool true)
                        visibleBlockPage).2 = [false] /\
  ~ Shows tagged
      (fun e => attributes e !! "data-version-first" = Some "1.0" \/
                attributes e !! "data-version-last" = Some "1.0")
      visibleBlockPage
      (Selector.filterApply (VString "1.0") (VBool true) visibleBlockPage).
Proof.
  repeat (split; [reflexivity|]).
  intros (_ & _ & H).
  assert (Hn : nodes (Selector.filterApply (VString "1.0") (VBool true)
                        visibleBlockPage).2 = nodes visibleBlockPage) by reflexivity.
  rewrite Hn in H.
  specialize (H _ (list_elem_of_here _ _) eq_refl).
  destruct (proj1 H eq_refl) as [Hf|Hl]; [vm_compute in Hf|vm_compute in Hl];
    discriminate.
Qed.

(** C3, amended.  In delta mode, for a version that is a string, an element
    that [filterApply(version, true)] selects is visible afterwards exactly
    when the version is the value of its [data-version-first] or of its
    [data-version-last] attribute.  The elements selected are every tagged
    element of a class page and every tagged list item of the index page;
    these are all the tagged elements of the index page when every tagged
    element of it is a list item. *)
Theorem filterApply_delta_exact (version : string) :
  (forall d : Document,
     Shows tagged
       (fun e => attributes e !! "data-version-first" = Some version \/
                 attributes e !! "data-version-last" = Some version)
       d (Frame.filterApply (VString version) (VBool true) d)) /\
  (forall (d : Document) (queue : list JsValue),
     iframeClass d = Some queue ->
     Shows taggedItem
       (fun e => attributes e !! "data-version-first" = Some version \/
                 attributes e !! "data-version-last" = Some version)
       d (Selector.filterApply (VString version) (VBool true) d)) /\
  (forall (d : Document) (queue : list JsValue),
     iframeClass d = Some queue ->
     taggedAreItems d ->
     Shows tagged
       (fun e => attributes e !! "data-version-first" = Some version \/
                 attributes e !! "data-version-last" = Some version)
       d (Selector.filterApply (VString version) (VBool true) d)).
Proof.
  assert (Hrule : forall e,
    (attributes (setVisible (deltaMatch version e) e) !! "data-version-first" = Some version \/
     attributes (setVisible (deltaMatch version e) e) !! "data-version-last" = Some version)
    <-> deltaMatch version e = true).
  { intros e. unfold deltaMatch, dataVersionFirst, dataVersionLast.
    cbn [attributes setVisible withClassList].
    rewrite orb_true_iff, !bool_decide_eq_true. tauto. }
  split; [|split].
  - intros d. rewrite (Frame_filterApply_total _ _ (deltaMatch version)).
    + apply (Shows_replaced tagged (deltaMatch version)); [apply tagged_same|done].
    + apply visibilityOf_delta.
  - intros d queue Hq.
    rewrite (Selector_filterApply_total _ _ (deltaMatch version) d queue); [| |done].
    + apply (Shows_replaced taggedItem (deltaMatch version)); [apply taggedItem_same|done].
    + apply visibilityOf_delta.
  - intros d queue Hq Hd.
    rewrite (Selector_filterApply_total _ _ (deltaMatch version) d queue); [| |done].
    + apply (Shows_replaced_items (deltaMatch version)); [done|].
      intros e He Ht Hl. specialize (Hd e He Ht). congruence.
    + apply visibilityOf_delta.
Qed.

Lemma filterApply_delta_exact_witness :
  Shows tagged
    (fun e => attributes e !! "data-version-first" = Some "1.1" \/
              attributes e !! "data-version-last" = Some "1.1")
    classSample
    (Frame.filterApply (VString "1.1") (VBool true) classSample) /\
  iframeClass hiddenIndexPage = Some [] /\
  taggedAreItems hiddenIndexPage /\
  Shows taggedItem
    (fun e => attributes e !! "data-version-first" = Some "2.0" \/
              attributes e !! "data-version-last" = Some "2.0")
    hiddenIndexPage
    (Selector.filterApply (VString "2.0") (VBool true) hiddenIndexPage) /\
  Shows tagged
    (fun e => attributes e !! "data-version-first" = Some "2.0" \/
              attributes e !! "data-version-last" = Some "2.0")
    hiddenIndexPage
    (Selector.filterApply (VString "2.0") (VBool true) hiddenIndexPage).
Proof.
  assert (Hli : taggedAreItems hiddenIndexPage).
  { intros e He _. unfold hiddenIndexPage, indexPage in He. cbn [nodes] in He.
    apply elem_of_cons in He as [->|He]; [reflexivity|].
    by apply elem_of_nil in He. }
  split; [apply (proj1 (filterApply_delta_exact "1.1"))|].
  split; [reflexivity|].
  split; [exact Hli|].
  split.
  - apply (proj1 (proj2 (filterApply_delta_exact "2.0")) hiddenIndexPage []).
    reflexivity.
  - apply (proj2 (proj2 (filterApply_delta_exact "2.0")) hiddenIndexPage []);
      [reflexivity|exact Hli].
Defined.

(** A version that is not a string is outside the theorem: undefined and
    null are [==] to the null of a missing attribute. *)
Example delta_undefined_version :
  isHidden <$> nodes (Frame.filterApply VUndefined (VBool true) hiddenClassPage).2
  = [false].
Proof. reflexivity. Qed.

(** The two examples of C3: first 1.0 and last 1.2 is hidden under 1.1 and
    visible under 1.0. *)
Example delta_example_hidden :
  isHidden <$> nodes (Frame.filterApply (VString "1.1") (VBool true)
                        (classPage [from10to12])).2 = [true].
Proof. reflexivity. Qed.

Example delta_example_visible :
  isHidden <$> nodes (Frame.filterApply (VString "1.0") (VBool true)
                        (classPage [from10to12])).2 = [false].
Proof. reflexivity. Qed.

(** C6. Applying [filterApply(v, d)] a second time changes nothing: in a
    class page the second call returns the document of the first with the
    same completion; in the index page it completes as the first and leaves
    the same elements with the same class lists (a second message is sent
    to the frame). *)
Theorem filterApply_idempotent (version delta : JsValue) (d : Document) :
  Frame.filterApply version delta (Frame.filterApply version delta d).2 =
    Frame.filterApply version delta d /\
  (Selector.filterApply version delta (Selector.filterApply version delta d).2).1 =
    (Selector.filterApply version delta d).1 /\
  nodes (Selector.filterApply version delta (Selector.filterApply version delta d).2).2 =
    nodes (Selector.filterApply version delta d).2.
Proof.
  split.
  - rewrite !Frame_filterApply_scan. cbn [fst snd nodes setNodes].
    by rewrite applyTo_scan_idempotent.
  - rewrite (Selector_filterApply_scan version delta d).
    destruct (iframeClass d) as [queue|] eqn:Hq.
    + rewrite Selector_filterApply_scan.
      cbn [fst snd nodes setNodes iframeClass setIframeClass].
      by rewrite applyTo_scan_idempotent.
    + cbn [fst snd]. by rewrite Selector_filterApply_scan, Hq.
Qed.

(** C7. An element with neither attribute keeps its class list (and the
    rest of it) through [filterClear] and [filterApply] of both scripts. *)
Theorem untagged_untouched (version delta : JsValue) (d : Document) (i : nat)
  (e : Element) :
  nodes d !! i = Some e ->
  attributes e !! "data-version-first" = None ->
  attributes e !! "data-version-last" = None ->
  nodes (Frame.filterClear d).2 !! i = Some e /\
  nodes (Frame.filterApply version delta d).2 !! i = Some e /\
  nodes (Selector.filterClear d).2 !! i = Some e /\
  nodes (Selector.filterApply version delta d).2 !! i = Some e.
Proof.
  intros Hi Hf Hl.
  assert (Ht : tagged e = false).
  { unfold tagged, hasAttribute, dataVersionFirst, dataVersionLast. rewrite Hf, Hl.
    rewrite bool_decide_eq_false_2; [done|]. by intros [? ?]. }
  assert (HF : matchesAny Frame.taggedSelectors e = false)
    by by rewrite matchesAny_frame.
  assert (HS : matchesAny Selector.taggedSelectors e = false).
  { rewrite matchesAny_selector. unfold taggedItem. rewrite Ht. apply andb_false_r. }
  repeat split.
  - rewrite Frame_filterClear_scan. by apply scan_untouched.
  - rewrite Frame_filterApply_scan. by apply scan_untouched.
  - rewrite Selector_filterClear_scan.
    destruct (iframeClass d); [by apply scan_untouched|done].
  - rewrite Selector_filterApply_scan.
    destruct (iframeClass d); [by apply scan_untouched|done].
Qed.

Lemma untagged_untouched_witness :
  nodes indexSample !! 1 = Some untaggedItem /\
  attributes untaggedItem !! "data-version-first" = None /\
  attributes untaggedItem !! "data-version-last" = None /\
  nodes (Frame.filterClear indexSample).2 !! 1 = Some untaggedItem /\
  nodes (Frame.filterApply (VString "1.0") (VBool true) indexSample).2 !! 1
    = Some untaggedItem /\
  nodes (Selector.filterClear indexSample).2 !! 1 = Some untaggedItem /\
  nodes (Selector.filterApply (VString "1.0") (VBool true) indexSample).2 !! 1
    = Some untaggedItem.
Proof.
  split; [reflexivity|]. split; [reflexivity|]. split; [reflexivity|].
  apply (untagged_untouched (VString "1.0") (VBool true) indexSample 1 untaggedItem);
    reflexivity.
Defined.



(** Both scripts leave the same elements when they start from the same
    ones, as long as every tagged element of the index page is a list
    item. *)
Lemma scan_selector_frame (f : Element -> Completion Element) (l : list Element) :
  Forall (fun e => tagged e = true -> listItem e = true) l ->
  scan Selector.taggedSelectors f l = scan Frame.taggedSelectors f l.
Proof.
  induction 1 as [|e rest He _ IH]; [done|].
  cbn [scan]. rewrite matchesAny_selector, matchesAny_frame, IH.
  unfold taggedItem. destruct (tagged e).
  - by rewrite He.
  - by rewrite andb_false_r.
Qed.

Lemma same_nodes_same_filter (version delta : JsValue) (dS dF : Document)
  (queue : list JsValue) :
  iframeClass dS = Some queue ->
  nodes dS = nodes dF ->
  Forall (fun e => tagged e = true -> listItem e = true) (nodes dS) ->
  (Selector.filterApply version delta dS).1 = (Frame.filterApply version delta dF).1 /\
  nodes (Selector.filterApply version delta dS).2 =
    nodes (Frame.filterApply version delta dF).2.
Proof.
  intros Hq Hn Hli.
  rewrite Selector_filterApply_scan, Frame_filterApply_scan, Hq, <- Hn.
  cbn [fst snd nodes setNodes].
  by rewrite (scan_selector_frame _ _ Hli).
Qed.

(** The query of the index page is scoped to list items: a tagged element
    that is not one is not selected, and keeps its class list. *)
Example index_page_scope :
  isHidden <$> nodes (Selector.filterApply (VString "master") (VBool false)
                        taggedBlockPage).2 = [true] /\
  isHidden <$> nodes (Frame.filterApply (VString "master") (VBool false)
                        taggedBlockPage).2 = [false].
Proof. split; reflexivity. Qed.

(** *** Cumulative mode *)

(** Two strings are compared by their code units. *)
Lemma lessEq_strings (a version : string) :
  lessEq (PString a) (VString version) = Normal (negb (String_lessThan version a)).
Proof. done. Qed.

Lemma lessEq_strings_leb (a version : string) :
  lessEq (PString a) (VString version) = Normal (String.leb a version).
Proof.
  rewrite lessEq_strings, String_lessThan_ltb.
  unfold String.ltb, String.leb. rewrite (String.compare_antisym a version).
  by destruct (String.compare version a).
Qed.

(** A missing attribute is null, and null is compared as the number +0. *)
Lemma lessEq_null_string (version : string) :
  lessEq PNull (VString version) =
    Normal match Number_lessThan (StringToNumber version) (Finite false 0) with
           | Some false => true
           | Some true | None => false
           end.
Proof.
  unfold lessEq. cbn [ToPrimitive bindC ToNumber].
  by destruct (Number_lessThan _ _) as [[]|].
Qed.

(** With both attributes there, the rule is the one on strings. *)
Lemma visibilityOf_cumulative_present (version a b : string) (e : Element) :
  attributes e !! dataVersionFirst = Some a ->
  attributes e !! dataVersionLast = Some b ->
  visibilityOf (VString version) (VBool false) e =
    Normal (String.eqb version "master"
            || negb (String_lessThan version a)
            || negb (String_lessThan version b)).
Proof.
  intros Ha Hb. unfold visibilityOf, computeVisibility, attributeOf.
  rewrite Ha, Hb. cbn [ToBoolean]. rewrite !lessEq_strings.
  unfold looseEq. cbn [ToPrimitive bindC looseEqPrimitive].
  destruct (String.eqb version "master"); [done|].
  cbn [orb]. by destruct (String_lessThan version a).
Qed.

(** With a version that is not a numeric literal, a missing attribute
    never makes an element visible. *)
Lemma lessEq_null_not_numeric (version : string) :
  StringToNumber version = NaN -> lessEq PNull (VString version) = Normal false.
Proof. intros Hn. by rewrite lessEq_null_string, Hn. Qed.

Example lessEq_null_release : lessEq PNull (VString "5.2.0") = Normal false.
Proof. reflexivity. Qed.

(** The first example of C1: first 1.0 is visible under 1.2. *)
Example cumulative_example_visible :
  isHidden <$> nodes (Frame.filterApply (VString "1.2") (VBool false)
                        (classPage [since10])).2 = [false] /\
  isHidden <$> nodes (Selector.filterApply (VString "1.2") (VBool false)
                        (indexPage [since10])).2 = [false].
Proof. split; reflexivity. Qed.

(** C1, at the element it names: with version 1.2 in cumulative mode, an
    element with first 2.0 and no [data-version-last] is visible after
    [filterApply] in both scripts, where the specification has it hidden.
    The comparison of the first attribute is the one on strings and fails;
    the missing attribute is null, which [<=] compares as the number +0
    with the number 1.2. *)
Theorem cumulative_missing_last_is_shown :
  attributes since20 !! "data-version-last" = None /\
  lessEq (PString "2.0") (VString "1.2") = Normal false /\
  lessEq PNull (VString "1.2") = Normal true /\
  isHidden <$> nodes hiddenClassPage = [true] /\
  isHidden <$> nodes (Frame.filterApply (VString "1.2") (VBool false)
                        hiddenClassPage).2 = [false] /\
  isHidden <$> nodes (Selector.filterApply (VString "1.2") (VBool false)
                        hiddenIndexPage).2 = [false].
Proof. repeat split; reflexivity. Qed.

(** *** Message handlers *)

(** What the index page sends is what the class page runs. *)
Lemma Frame_receives_filterApply (version delta : JsValue) (d : Document) :
  Frame.onMessage (applyMessage version delta) d = Frame.filterApply version delta d.
Proof. done. Qed.

Lemma Frame_receives_filterClear (d : Document) :
  Frame.onMessage clearMessage d = Frame.filterClear d.
Proof. done. Qed.

Lemma Selector_filterApply_posts (version delta : JsValue) (d : Document)
  (queue : list JsValue) :
  iframeClass d = Some queue ->
  iframeClass (Selector.filterApply version delta d).2 =
    Some (queue ++ [applyMessage version delta])%list.
Proof. intros Hq. by rewrite Selector_filterApply_scan, Hq. Qed.

(** A class page that handles the message of the index page ends with the
    elements the index page ends with, when both start from the same ones
    and the tagged ones are list items. *)
Lemma frame_follows_index (version delta : JsValue) (dS dF : Document)
  (queue : list JsValue) :
  iframeClass dS = Some queue ->
  nodes dS = nodes dF ->
  taggedAreItems dS ->
  exists message,
    last_message (iframeClass (Selector.filterApply version delta dS).2) = Some message /\
    nodes (Frame.onMessage message dF).2 =
      nodes (Selector.filterApply version delta dS).2.
Proof.
  intros Hq Hn Hli. exists (applyMessage version delta). split.
  - rewrite (Selector_filterApply_posts _ _ _ _ Hq). unfold last_message.
    simpl. by rewrite last_snoc.
  - rewrite Frame_receives_filterApply. symmetry.
    apply (same_nodes_same_filter _ _ _ _ queue Hq Hn).
    apply Forall_forall. intros e He. by apply Hli.
Qed.

(** C10. A [filterApply] message without [version] and [delta] runs
    [filterApply(undefined, undefined)]: undefined is falsy, so the
    cumulative branch is taken; the comparison with ['master'] and every
    [<=] against undefined are false; every tagged element of the class
    page ends up hidden. *)
Theorem filterApply_message_without_fields (properties : list (string * JsValue))
  (d : Document) :
  lookupProperty properties "method" = Some (VString "filterApply") ->
  lookupProperty properties "version" = None ->
  lookupProperty properties "delta" = None ->
  Frame.onMessage (VObject properties) d = Frame.filterApply VUndefined VUndefined d /\
  ToBoolean VUndefined = false /\
  looseEq VUndefined (PString "master") = Normal false /\
  (forall attribute : Primitive, lessEq attribute VUndefined = Normal false) /\
  Shows tagged (fun _ => False) d (Frame.onMessage (VObject properties) d).
Proof.
  intros Hm Hv Hd.
  assert (Hle : forall attribute : Primitive, lessEq attribute VUndefined = Normal false).
  { intros p. unfold lessEq. cbn [ToPrimitive bindC ToNumber Number_lessThan].
    by destruct p. }
  assert (Hrun : Frame.onMessage (VObject properties) d =
                 Frame.filterApply VUndefined VUndefined d).
  { unfold Frame.onMessage, bind, lift. cbn [Get]. by rewrite Hm, Hv, Hd. }
  split; [exact Hrun|]. split; [done|]. split; [done|]. split; [exact Hle|].
  rewrite Hrun, (Frame_filterApply_total _ _ (fun _ => false)).
  - apply (Shows_replaced tagged (fun _ => false)); [apply tagged_same|done].
  - intros e. unfold visibilityOf, computeVisibility. cbn [ToBoolean].
    by rewrite !Hle.
Qed.

Lemma filterApply_message_without_fields_witness :
  Frame.onMessage bareApplyMessage classSample =
    Frame.filterApply VUndefined VUndefined classSample /\
  ToBoolean VUndefined = false /\
  looseEq VUndefined (PString "master") = Normal false /\
  (forall attribute : Primitive, lessEq attribute VUndefined = Normal false) /\
  Shows tagged (fun _ => False) classSample (Frame.onMessage bareApplyMessage classSample).
Proof.
  apply (filterApply_message_without_fields [("method", VString "filterApply")]
           classSample);
    reflexivity.
Defined.

Example filterApply_message_without_fields_example :
  isHidden <$> nodes (Frame.onMessage (VObject [("method", VString "filterApply")])
                        (classPage [since10; from10to12; element "li" [] []])).2
  = [true; true; false].
Proof. reflexivity. Qed.

(** The handler of the index page before a change handler is bound. *)
Lemma Selector_onMessage_unbound (data : JsValue) (d : Document) :
  Get data "method" = Normal (VString "getFilter") ->
  (forall c, tags d = Some c -> onchange c = None) ->
  Selector.onMessage data d = (Throw TypeError, d).
Proof.
  intros Hm Hc. unfold Selector.onMessage, bind, lift. rewrite Hm.
  replace (looseEq (VString "getFilter") (PString "getFilter")) with (Normal true)
    by done.
  unfold selection, control. destruct (tags d) as [c|] eqn:Ht; [|done].
  unfold ret. by rewrite (Hc c).
Qed.

(** C2, as stated, fails: on an index page whose select has no change
    handler yet, the handler of a [getFilter] message does not complete
    normally. *)
Lemma getFilter_before_binding_throws :
  (onchange <$> tags loadingSample) = Some None /\
  (Selector.onMessage getFilterMessage loadingSample).1 <> Normal tt.
Proof. split; [reflexivity|discriminate]. Qed.

(** C2, amended.  When a [getFilter] message reaches the index page before
    a change handler is bound to the select (or before there is a select),
    the handler throws a TypeError, the call of [selection.onchange]
    failing, and the document is as before: no class list has changed and
    no message has been sent.  The request is lost, not answered. *)
Theorem getFilter_before_binding (properties : list (string * JsValue)) (d : Document) :
  lookupProperty properties "method" = Some (VString "getFilter") ->
  (forall c, tags d = Some c -> onchange c = None) ->
  Selector.onMessage (VObject properties) d = (Throw TypeError, d).
Proof.
  intros Hm Hc. apply Selector_onMessage_unbound; [|done].
  cbn [Get]. by rewrite Hm.
Qed.

Lemma getFilter_before_binding_witness :
  lookupProperty [("method", VString "getFilter")] "method" = Some (VString "getFilter") /\
  (forall c, tags loadingSample = Some c -> onchange c = None) /\
  Selector.onMessage getFilterMessage loadingSample = (Throw TypeError, loadingSample).
Proof.
  assert (Hc : forall c, tags loadingSample = Some c -> onchange c = None).
  { intros c Hc. injection Hc as <-. reflexivity. }
  split; [reflexivity|]. split; [exact Hc|].
  apply (getFilter_before_binding [("method", VString "getFilter")] loadingSample);
    [reflexivity|exact Hc].
Defined.

(** Once the listener of [readystatechange] has run on a complete page, the
    same message is answered: the filter is applied and sent to the
    frame. *)
Example getFilter_after_binding :
  ((Selector.onReadyStateChange ;; Selector.onMessage getFilterMessage)
     loadingSample).1 = Normal tt /\
  iframeClass
    ((Selector.onReadyStateChange ;; Selector.onMessage getFilterMessage)
       loadingSample).2 = Some [applyMessage (VString "1.2") (VBool false)].
Proof. split; reflexivity. Qed.

(** C9, as stated, fails: a [method] that is not a string, here an array
    holding the string, is still dispatched by [==]; the class page runs
    [filterClear] and the element loses its [hidden] class. *)
Lemma array_method_is_dispatched :
  arrayMethod <> VString "filterClear" /\
  arrayMethod <> VString "filterApply" /\
  Get arrayMessage "method" = Normal arrayMethod /\
  isHidden <$> nodes hiddenClassPage = [true] /\
  isHidden <$> nodes (Frame.onMessage arrayMessage hiddenClassPage).2 = [false].
Proof. repeat split; done. Qed.

(** C9, amended.  A message whose data is neither null nor undefined (so
    that its [method] can be read) and whose [method] is not [==] to a
    recognised string is ignored: the handler completes normally and the
    document is as before, so that no class list has changed and no message
    has been sent. *)
Theorem unrecognized_method_ignored (data method : JsValue) (d : Document) :
  Get data "method" = Normal method ->
  (looseEq method (PString "filterClear") = Normal false ->
   looseEq method (PString "filterApply") = Normal false ->
   Frame.onMessage data d = (Normal tt, d)) /\
  (looseEq method (PString "getFilter") = Normal false ->
   Selector.onMessage data d = (Normal tt, d)).
Proof.
  intros Hm. split.
  - intros Hc Ha. unfold Frame.onMessage, bind, lift. by rewrite Hm, Hc, Ha.
  - intros Hg. unfold Selector.onMessage, bind, lift. by rewrite Hm, Hg.
Qed.

(** Undefined (a missing [method]), null, a boolean and any other string
    are not [==] to a recognised string. *)
Lemma looseEq_other_primitive (method : JsValue) (name : string) :
  name ∈ ["filterClear"; "filterApply"; "getFilter"] ->
  match method with
  | VUndefined | VNull | VBool _ => True
  | VString s => s <> name
  | VArray _ | VObject _ => False
  end ->
  looseEq method (PString name) = Normal false.
Proof.
  intros Hname Hmethod.
  destruct method as [| |b|s| |]; try done.
  - unfold looseEq. cbn [ToPrimitive bindC looseEqPrimitive ToNumber]. f_equal.
    repeat (apply elem_of_cons in Hname as [->|Hname]; [by destruct b|]).
    by apply elem_of_nil in Hname.
  - unfold looseEq. cbn [ToPrimitive bindC looseEqPrimitive]. f_equal.
    by apply String.eqb_neq.
Qed.

Lemma unrecognized_method_ignored_witness :
  Get otherMessage "method" = Normal (VString "filterclear") /\
  Frame.onMessage otherMessage hiddenIndexPage = (Normal tt, hiddenIndexPage) /\
  Selector.onMessage otherMessage hiddenIndexPage = (Normal tt, hiddenIndexPage).
Proof.
  split; [reflexivity|].
  split.
  - apply (proj1 (unrecognized_method_ignored otherMessage (VString "filterclear")
                    hiddenIndexPage eq_refl)); reflexivity.
  - apply (proj2 (unrecognized_method_ignored otherMessage (VString "filterclear")
                    hiddenIndexPage eq_refl)); reflexivity.
Defined.

(** ** Further properties of the scripts *)

Import Protocol.

(** *** The frame of the index page *)

Lemma Selector_filterClear_no_frame (d : Document) :
  iframeClass d = None -> Selector.filterClear d = (Throw TypeError, d).
Proof. intros Hq. by rewrite Selector_filterClear_scan, Hq. Qed.

Lemma Selector_filterApply_no_frame (version delta : JsValue) (d : Document) :
  iframeClass d = None -> Selector.filterApply version delta d = (Throw TypeError, d).
Proof. intros Hq. by rewrite Selector_filterApply_scan, Hq. Qed.

(** X1. On an index page without its [iframeClass] frame, [filterClear] and
    [filterApply] throw a TypeError before their loop: the document is as
    before, no class list has changed. *)
Theorem selector_filters_need_frame (version delta : JsValue) (d : Document) :
  iframeClass d = None ->
  Selector.filterClear d = (Throw TypeError, d) /\
  Selector.filterApply version delta d = (Throw TypeError, d).
Proof.
  intros Hq. split.
  - by apply Selector_filterClear_no_frame.
  - by apply Selector_filterApply_no_frame.
Qed.

Lemma selector_filters_need_frame_witness :
  iframeClass framelessPage = None /\
  Selector.filterClear framelessPage = (Throw TypeError, framelessPage) /\
  Selector.filterApply (VString "1.2") (VBool false) framelessPage =
    (Throw TypeError, framelessPage).
Proof.
  split; [reflexivity|].
  apply (selector_filters_need_frame (VString "1.2") (VBool false) framelessPage).
  reflexivity.
Defined.

(** X2. With the frame there, each call of [filterClear] and of
    [filterApply] on the index page posts exactly one message to it, after
    those already posted, whatever happens in its loop: the clear message,
    or the apply message with the version and the delta it was given. *)
Theorem selector_filters_post_one_message (version delta : JsValue) (d : Document)
  (queue : list JsValue) :
  iframeClass d = Some queue ->
  iframeClass (Selector.filterClear d).2 =
    Some (queue ++ [VObject [("method", VString "filterClear")]])%list /\
  iframeClass (Selector.filterApply version delta d).2 =
    Some (queue ++ [VObject [("method", VString "filterApply");
                             ("version", version); ("delta", delta)]])%list.
Proof.
  intros Hq. by rewrite Selector_filterClear_scan, Selector_filterApply_scan, Hq.
Qed.

Lemma selector_filters_post_one_message_witness :
  iframeClass indexSample = Some [] /\
  iframeClass (Selector.filterClear indexSample).2 =
    Some [VObject [("method", VString "filterClear")]] /\
  iframeClass (Selector.filterApply (VArray []) VNull indexSample).2 =
    Some [VObject [("method", VString "filterApply");
                   ("version", VArray []); ("delta", VNull)]].
Proof.
  split; [reflexivity|].
  apply (selector_filters_post_one_message (VArray []) VNull indexSample []).
  reflexivity.
Defined.

(** *** One filter after another *)

Lemma visibilityOf_same (version delta : JsValue) (e e' : Element) :
  sameElement e e' -> visibilityOf version delta e' = visibilityOf version delta e.
Proof. intros [_ Ha]. unfold visibilityOf, attributeOf. by rewrite Ha. Qed.

Lemma scan_forgets (selectors : list CompoundSelector) (version delta : JsValue)
  (l1 l2 : list Element) :
  Forall2 sameElement l1 l2 ->
  (scan selectors (applyTo version delta) l1).1 =
    (scan selectors (applyTo version delta) l2).1 /\
  ((scan selectors (applyTo version delta) l1).1 = Normal tt ->
   sameFlags (matchesAny selectors)
     (scan selectors (applyTo version delta) l1).2
     (scan selectors (applyTo version delta) l2).2).
Proof.
  induction 1 as [|e1 e2 r1 r2 He Hr [IHc IHf]]; [by split; [|constructor]|].
  cbn [scan]. rewrite (matchesAny_keeps selectors e1 e2) by apply He.
  destruct (matchesAny selectors e1) eqn:Hm.
  - assert (H2 : applyTo version delta e2 =
                 bindC (visibilityOf version delta e1)
                   (fun b => Normal (setVisible b e2))).
    { unfold applyTo. by rewrite (visibilityOf_same _ _ e1 e2 He). }
    assert (H1 : applyTo version delta e1 =
                 bindC (visibilityOf version delta e1)
                   (fun b => Normal (setVisible b e1))) by done.
    rewrite H1, H2. clear H1 H2.
    destruct (visibilityOf version delta e1) as [b|x]; cbn [bindC]; [|done].
    destruct (scan selectors (applyTo version delta) r1) as [c1 r1'].
    destruct (scan selectors (applyTo version delta) r2) as [c2 r2'].
    cbn [fst snd] in *. split; [done|]. intros Hc. constructor; [|by apply IHf].
    split.
    + destruct He as [Hn Ha]. by split.
    + intros _. by rewrite !isHidden_setVisible.
  - destruct (scan selectors (applyTo version delta) r1) as [c1 r1'].
    destruct (scan selectors (applyTo version delta) r2) as [c2 r2'].
    cbn [fst snd] in *. split; [done|]. intros Hc. constructor; [|by apply IHf].
    split; [done|]. intros Hm'. congruence.
Qed.

Lemma sameFlags_impl (c c' : Element -> bool) (l l' : list Element) :
  (forall e, c' e = c e) -> sameFlags c l l' -> sameFlags c' l l'.
Proof.
  intros Hc H. unfold sameFlags in *. eapply Forall2_impl; [exact H|].
  intros e e' [Hs Hf]. split; [done|]. intros H'. apply Hf. by rewrite <- Hc.
Qed.

(** X4. What [filterApply] leaves on the candidates does not depend on the
    class lists it finds: run on two documents with the same elements, it
    completes alike, and when it completes normally the same candidates are
    hidden in both (the tagged elements of a class page, the tagged list
    items of an index page with its frame).  The filter applied last
    decides, whatever was applied before. *)
Theorem filterApply_forgets_history (version delta : JsValue) (d1 d2 : Document) :
  Forall2 sameElement (nodes d1) (nodes d2) ->
  ((Frame.filterApply version delta d1).1 = (Frame.filterApply version delta d2).1 /\
   ((Frame.filterApply version delta d1).1 = Normal tt ->
    sameFlags tagged
      (nodes (Frame.filterApply version delta d1).2)
      (nodes (Frame.filterApply version delta d2).2))) /\
  (forall q1 q2 : list JsValue,
     iframeClass d1 = Some q1 -> iframeClass d2 = Some q2 ->
     (Selector.filterApply version delta d1).1 =
       (Selector.filterApply version delta d2).1 /\
     ((Selector.filterApply version delta d1).1 = Normal tt ->
      sameFlags taggedItem
        (nodes (Selector.filterApply version delta d1).2)
        (nodes (Selector.filterApply version delta d2).2))).
Proof.
  intros Hs. split.
  - rewrite !Frame_filterApply_scan. cbn [fst snd nodes setNodes].
    destruct (scan_forgets Frame.taggedSelectors version delta _ _ Hs) as [Hc Hf].
    split; [done|]. intros Hn.
    apply (sameFlags_impl (matchesAny Frame.taggedSelectors)); [|by apply Hf].
    intros e. by rewrite matchesAny_frame.
  - intros q1 q2 H1 H2. rewrite !Selector_filterApply_scan, H1, H2.
    cbn [fst snd nodes setNodes].
    destruct (scan_forgets Selector.taggedSelectors version delta _ _ Hs) as [Hc Hf].
    split; [done|]. intros Hn.
    apply (sameFlags_impl (matchesAny Selector.taggedSelectors)); [|by apply Hf].
    intros e. by rewrite matchesAny_selector.
Qed.

Lemma filterApply_forgets_history_witness :
  Forall2 sameElement [hiddenFirst; since20] [from10to12; since20] /\
  (Frame.filterApply (VString "1.1") (VBool true) (classPage [hiddenFirst; since20])).1 =
    (Frame.filterApply (VString "1.1") (VBool true) (classPage [from10to12; since20])).1 /\
  ((Frame.filterApply (VString "1.1") (VBool true) (classPage [hiddenFirst; since20])).1
     = Normal tt ->
   sameFlags tagged
     (nodes (Frame.filterApply (VString "1.1") (VBool true)
               (classPage [hiddenFirst; since20])).2)
     (nodes (Frame.filterApply (VString "1.1") (VBool true)
               (classPage [from10to12; since20])).2)) /\
  iframeClass (indexPage [hiddenFirst; since20]) = Some [] /\
  iframeClass (indexPage [from10to12; since20]) = Some [] /\
  (Selector.filterApply (VString "1.1") (VBool true) (indexPage [hiddenFirst; since20])).1 =
    (Selector.filterApply (VString "1.1") (VBool true) (indexPage [from10to12; since20])).1.
Proof.
  assert (Hs : Forall2 sameElement [hiddenFirst; since20] [from10to12; since20]).
  { repeat constructor. }
  split; [exact Hs|].
  split; [apply (proj1 (proj1 (filterApply_forgets_history (VString "1.1") (VBool true)
                  (classPage [hiddenFirst; since20])
                  (classPage [from10to12; since20]) Hs)))|].
  split; [apply (proj2 (proj1 (filterApply_forgets_history (VString "1.1") (VBool true)
                  (classPage [hiddenFirst; since20])
                  (classPage [from10to12; since20]) Hs)))|].
  split; [reflexivity|]. split; [reflexivity|].
  apply (proj1 (proj2 (filterApply_forgets_history (VString "1.1") (VBool true)
                  (indexPage [hiddenFirst; since20])
                  (indexPage [from10to12; since20]) Hs) [] [] eq_refl eq_refl)).
Defined.

Lemma scan_ext (selectors : list CompoundSelector)
  (f g : Element -> Completion Element) (l : list Element) :
  (forall e, f e = g e) -> scan selectors f l = scan selectors g l.
Proof.
  intros Hfg. induction l as [|e rest IH]; [done|].
  cbn [scan]. by rewrite Hfg, IH.
Qed.

Lemma applyTo_master (delta : JsValue) (e : Element) :
  ToBoolean delta = false -> applyTo (VString "master") delta e = clear e.
Proof.
  intros Hd. unfold applyTo. by rewrite visibilityOf_master.
Qed.

(** X5. In cumulative mode (a falsy delta) the filter for ["master"] is
    [filterClear]: in a class page the two calls return the same completion
    and the same document; in the index page they complete alike and leave
    the same elements, the message they post being the only difference. *)
Theorem filterApply_master_is_filterClear (delta : JsValue) (d : Document) :
  ToBoolean delta = false ->
  Frame.filterApply (VString "master") delta d = Frame.filterClear d /\
  (Selector.filterApply (VString "master") delta d).1 = (Selector.filterClear d).1 /\
  nodes (Selector.filterApply (VString "master") delta d).2 =
    nodes (Selector.filterClear d).2.
Proof.
  intros Hd.
  rewrite Frame_filterApply_scan, Frame_filterClear_scan,
    Selector_filterApply_scan, Selector_filterClear_scan.
  rewrite !(scan_ext _ (applyTo (VString "master") delta) clear)
    by (intros e; by apply applyTo_master).
  split; [done|]. by destruct (iframeClass d).
Qed.

Lemma filterApply_master_is_filterClear_witness :
  ToBoolean VUndefined = false /\
  Frame.filterApply (VString "master") VUndefined classSample =
    Frame.filterClear classSample /\
  (Selector.filterApply (VString "master") VUndefined indexSample).1 =
    (Selector.filterClear indexSample).1 /\
  nodes (Selector.filterApply (VString "master") VUndefined indexSample).2 =
    nodes (Selector.filterClear indexSample).2.
Proof.
  split; [reflexivity|]. split.
  - apply (proj1 (filterApply_master_is_filterClear VUndefined classSample eq_refl)).
  - apply (proj2 (filterApply_master_is_filterClear VUndefined indexSample eq_refl)).
Defined.

(** *** Delta mode and cumulative mode *)

Lemma String_lessThan_irrefl (x : string) : String_lessThan x x = false.
Proof.
  induction x as [|c x IH]; [done|]. cbn [String_lessThan].
  by rewrite Z.eqb_refl.
Qed.

(** [<=] on strings is transitive. *)
Lemma String_lessThan_trans (x y z : string) :
  String_lessThan y x = false -> String_lessThan z y = false ->
  String_lessThan z x = false.
Proof.
  revert y z. induction x as [|c x IH]; intros [|d y] [|e z]; cbn [String_lessThan];
    try done.
  destruct (Z.eqb_spec (codeUnit d) (codeUnit c)) as [Hdc|Hdc];
    destruct (Z.eqb_spec (codeUnit e) (codeUnit d)) as [Hed|Hed];
    destruct (Z.eqb_spec (codeUnit e) (codeUnit c)) as [Hec|Hec];
    rewrite ?Z.ltb_ge; try lia; try apply IH.
  all: intros; try lia.
Qed.

Lemma lessEq_string_normal (p : Primitive) (version : string) :
  exists b, lessEq p (VString version) = Normal b.
Proof.
  unfold lessEq. cbn [ToPrimitive bindC].
  destruct p; try (destruct (Number_lessThan _ _) as [[]|]); eauto.
Qed.

Lemma cumulativeShow_spec (version : string) (e : Element) :
  visibilityOf (VString version) (VBool false) e = Normal (cumulativeShow version e).
Proof.
  unfold cumulativeShow.
  destruct (visibilityOf (VString version) (VBool false) e) as [b|x] eqn:Hv; [done|].
  exfalso. revert Hv. unfold visibilityOf, computeVisibility. cbn [ToBoolean].
  unfold looseEq. cbn [ToPrimitive bindC].
  destruct (looseEqPrimitive (PString version) (PString "master")); [done|].
  destruct (lessEq_string_normal (attributeOf e dataVersionFirst) version) as [b1 ->].
  destruct (lessEq_string_normal (attributeOf e dataVersionLast) version) as [b2 ->].
  cbn [bindC]. by destruct b1.
Qed.

Lemma deltaMatch_cumulativeShow (version : string) (e : Element) :
  deltaMatch version e = true -> cumulativeShow version e = true.
Proof.
  intros Hd.
  assert (Hv := cumulativeShow_spec version e).
  destruct (cumulativeShow version e); [done|]. exfalso.
  revert Hv. unfold visibilityOf, computeVisibility, attributeOf. cbn [ToBoolean].
  unfold deltaMatch in Hd. apply orb_true_iff in Hd.
  destruct (looseEq (VString version) (PString "master")) as [[]|]; cbn [bindC];
    [done| |done].
  destruct Hd as [Hf|Hl].
  - apply bool_decide_eq_true in Hf. rewrite Hf, lessEq_strings.
    by rewrite String_lessThan_irrefl.
  - apply bool_decide_eq_true in Hl. rewrite Hl.
    destruct (lessEq _ (VString version)) as [[]|]; cbn [bindC]; [done| |done].
    by rewrite lessEq_strings, String_lessThan_irrefl.
Qed.

Lemma visibleAt_filtered (candidate vis : Element -> bool) (d : Document)
  (l : list Element) (i : nat) :
  visibleAt (setNodes ((fun e => if candidate e then setVisible (vis e) e else e) <$> l) d) i
  = match l !! i with
    | Some e => if candidate e then vis e else negb (isHidden e)
    | None => false
    end.
Proof.
  unfold visibleAt. cbn [nodes setNodes]. rewrite list_lookup_fmap.
  destruct (l !! i) as [e|]; [|done]. cbn [fmap option_fmap option_map].
  destruct (candidate e); [|done]. rewrite isHidden_setVisible. apply negb_involutive.
Qed.

(** Two filters that do not throw, the second showing every candidate the
    first shows: what is visible after the first is visible after the
    second. *)
Lemma visible_after_both (candidate vis1 vis2 : Element -> bool) (d1 d2 : Document)
  (l : list Element) (i : nat) :
  (forall e, l !! i = Some e -> candidate e = true -> vis1 e = true -> vis2 e = true) ->
  visibleAt (setNodes ((fun e => if candidate e then setVisible (vis1 e) e else e) <$> l) d1) i
    = true ->
  visibleAt (setNodes ((fun e => if candidate e then setVisible (vis2 e) e else e) <$> l) d2) i
    = true.
Proof.
  intros Hv. rewrite !visibleAt_filtered.
  destruct (l !! i) as [e|] eqn:He; [|done].
  destruct (candidate e) eqn:Hc; [|done]. by apply Hv.
Qed.

(** X6. Delta mode shows a part of what cumulative mode shows: for a
    version that is a string, an element that is visible after
    [filterApply(version, true)] is visible after
    [filterApply(version, false)] on the same document, in both scripts. *)
Theorem delta_within_cumulative (version : string) (d : Document) (i : nat) :
  (visibleAt (Frame.filterApply (VString version) (VBool true) d).2 i = true ->
   visibleAt (Frame.filterApply (VString version) (VBool false) d).2 i = true) /\
  (visibleAt (Selector.filterApply (VString version) (VBool true) d).2 i = true ->
   visibleAt (Selector.filterApply (VString version) (VBool false) d).2 i = true).
Proof.
  split.
  - rewrite (Frame_filterApply_total _ _ (deltaMatch version))
      by apply visibilityOf_delta.
    rewrite (Frame_filterApply_total _ _ (cumulativeShow version))
      by apply cumulativeShow_spec.
    apply visible_after_both. intros e _ _. apply deltaMatch_cumulativeShow.
  - destruct (iframeClass d) as [queue|] eqn:Hq.
    + rewrite (Selector_filterApply_total _ _ (deltaMatch version) d queue)
        by (apply visibilityOf_delta || done).
      rewrite (Selector_filterApply_total _ _ (cumulativeShow version) d queue)
        by (apply cumulativeShow_spec || done).
      apply visible_after_both. intros e _ _. apply deltaMatch_cumulativeShow.
    + by rewrite !Selector_filterApply_scan, Hq.
Qed.

Lemma delta_within_cumulative_witness :
  visibleAt (Frame.filterApply (VString "1.2") (VBool true) classSample).2 1 = true /\
  visibleAt (Frame.filterApply (VString "1.2") (VBool false) classSample).2 1 = true /\
  visibleAt (Selector.filterApply (VString "2.0") (VBool true) indexSample).2 0 = true /\
  visibleAt (Selector.filterApply (VString "2.0") (VBool false) indexSample).2 0 = true.
Proof.
  split; [reflexivity|].
  split; [apply (proj1 (delta_within_cumulative "1.2" classSample 1)); reflexivity|].
  split; [reflexivity|].
  apply (proj2 (delta_within_cumulative "2.0" indexSample 0)); reflexivity.
Defined.

Lemma cumulativeShow_monotone (v v' a b : string) (e : Element) :
  attributes e !! dataVersionFirst = Some a ->
  attributes e !! dataVersionLast = Some b ->
  v <> "master" ->
  String_lessThan v' v = false ->
  cumulativeShow v e = true -> cumulativeShow v' e = true.
Proof.
  intros Ha Hb Hm Hle Hv.
  assert (H := cumulativeShow_spec v e).
  assert (H' := cumulativeShow_spec v' e).
  rewrite (visibilityOf_cumulative_present v a b e Ha Hb) in H.
  rewrite (visibilityOf_cumulative_present v' a b e Ha Hb) in H'.
  injection H as H. injection H' as H'. rewrite <- H'. rewrite Hv in H.
  apply String.eqb_neq in Hm. rewrite Hm in H. cbn [orb] in H.
  apply orb_true_iff in H as [H|H]; apply negb_true_iff in H.
  - rewrite (String_lessThan_trans a v v' H Hle). cbn [negb].
    by rewrite orb_true_r.
  - rewrite (String_lessThan_trans b v v' H Hle). by rewrite orb_true_r.
Qed.

(** X7. In cumulative mode an element that carries both attributes stays
    visible when the version grows in the order of [<=] on strings: visible
    after [filterApply(v, false)] for a [v] other than ["master"], it is
    visible after [filterApply(v', false)] for every [v'] with [v <= v'],
    in both scripts.  (The order is the one on code units, so that
    ["9" <= "10"] does not hold.) *)
Theorem cumulative_monotone (v v' a b : string) (d : Document) (i : nat)
  (e : Element) :
  nodes d !! i = Some e ->
  attributes e !! "data-version-first" = Some a ->
  attributes e !! "data-version-last" = Some b ->
  v <> "master" ->
  lessEq (PString v) (VString v') = Normal true ->
  (visibleAt (Frame.filterApply (VString v) (VBool false) d).2 i = true ->
   visibleAt (Frame.filterApply (VString v') (VBool false) d).2 i = true) /\
  (visibleAt (Selector.filterApply (VString v) (VBool false) d).2 i = true ->
   visibleAt (Selector.filterApply (VString v') (VBool false) d).2 i = true).
Proof.
  intros He Ha Hb Hm Hle. rewrite lessEq_strings in Hle.
  injection Hle as Hle. apply negb_true_iff in Hle.
  assert (Hv : forall x, nodes d !! i = Some x ->
                 cumulativeShow v x = true -> cumulativeShow v' x = true).
  { intros x Hx. rewrite He in Hx. injection Hx as <-.
    by apply (cumulativeShow_monotone v v' a b). }
  split.
  - rewrite (Frame_filterApply_total _ _ (cumulativeShow v))
      by apply cumulativeShow_spec.
    rewrite (Frame_filterApply_total _ _ (cumulativeShow v'))
      by apply cumulativeShow_spec.
    apply visible_after_both. intros x Hx _. by apply Hv.
  - destruct (iframeClass d) as [queue|] eqn:Hq.
    + rewrite (Selector_filterApply_total _ _ (cumulativeShow v) d queue)
        by (apply cumulativeShow_spec || done).
      rewrite (Selector_filterApply_total _ _ (cumulativeShow v') d queue)
        by (apply cumulativeShow_spec || done).
      apply visible_after_both. intros x Hx _. by apply Hv.
    + by rewrite !Selector_filterApply_scan, Hq.
Qed.

Lemma cumulative_monotone_witness :
  nodes (indexPage [hiddenFirst]) !! 0 = Some hiddenFirst /\
  attributes hiddenFirst !! "data-version-first" = Some "1.0" /\
  attributes hiddenFirst !! "data-version-last" = Some "1.2" /\
  "1.1" <> "master" /\
  lessEq (PString "1.1") (VString "1.5") = Normal true /\
  visibleAt (Frame.filterApply (VString "1.1") (VBool false)
               (indexPage [hiddenFirst])).2 0 = true /\
  visibleAt (Frame.filterApply (VString "1.5") (VBool false)
               (indexPage [hiddenFirst])).2 0 = true /\
  visibleAt (Selector.filterApply (VString "1.1") (VBool false)
               (indexPage [hiddenFirst])).2 0 = true /\
  visibleAt (Selector.filterApply (VString "1.5") (VBool false)
               (indexPage [hiddenFirst])).2 0 = true.
Proof.
  split; [reflexivity|]. split; [reflexivity|]. split; [reflexivity|].
  split; [discriminate|]. split; [reflexivity|].
  split; [reflexivity|].
  split.
  - apply (proj1 (cumulative_monotone "1.1" "1.5" "1.0" "1.2" (indexPage [hiddenFirst])
                    0 hiddenFirst eq_refl eq_refl eq_refl
                    ltac:(discriminate) eq_refl)).
    reflexivity.
  - split; [reflexivity|].
    apply (proj2 (cumulative_monotone "1.1" "1.5" "1.0" "1.2" (indexPage [hiddenFirst])
                    0 hiddenFirst eq_refl eq_refl eq_refl
                    ltac:(discriminate) eq_refl)).
    reflexivity.
Defined.

(** *** The closure [update] *)

Lemma deltaArgument_spec (d : Document) (t : FormControl) :
  viewModeDelta d = Some t ->
  Selector.deltaArgument d = (Normal (VBool (negb (disabled t) && checked t)), d).
Proof.
  intros Ht. unfold Selector.deltaArgument, bind, viewModeDeltaControl, control.
  rewrite Ht. unfold ret. by destruct (disabled t).
Qed.

Lemma update_other (d : Document) (s t : FormControl) (lbl : Element) :
  tags d = Some s -> String.eqb (value s) "master" = false ->
  viewModeDelta d = Some t -> viewModeDeltaLbl d = Some lbl ->
  Selector.update d =
    Selector.filterApply (VString (value s)) (VBool (checked t)) (withToggleShown t lbl d).
Proof.
  intros Hs Hm Ht Hl. unfold Selector.update, bind at 1, selection, control.
  rewrite Hs. unfold ret at 1. rewrite Hm.
  unfold bind at 1, viewModeDeltaControl, control. rewrite Ht. unfold ret at 1.
  unfold bind at 1, modify. unfold bind at 1. cbn [viewModeDeltaLbl setViewModeDelta].
  rewrite Hl. unfold bind at 1.
  rewrite (deltaArgument_spec _ (withDisabled false t)) by done.
  done.
Qed.

Lemma update_master (d : Document) (s : FormControl) :
  tags d = Some s -> String.eqb (value s) "master" = true ->
  Selector.update d =
    match Selector.filterClear d with
    | (Normal _, d1) =>
        match viewModeDelta d with
        | Some t =>
            Selector.filterApply (VString (value s))
              (VBool (negb (disabled t) && checked t)) d1
        | None => (Throw TypeError, d1)
        end
    | (Throw x, d1) => (Throw x, d1)
    end.
Proof.
  intros Hs Hm. unfold Selector.update, bind at 1, selection, control.
  rewrite Hs. unfold ret at 1. rewrite Hm. unfold bind at 1.
  assert (Hc : viewModeDelta (Selector.filterClear d).2 = viewModeDelta d).
  { rewrite Selector_filterClear_scan. by destruct (iframeClass d). }
  destruct (Selector.filterClear d) as [[[]|x] d1]; [|done]. cbn [snd] in Hc.
  unfold bind at 1.
  destruct (viewModeDelta d) as [t|] eqn:Ht.
  - by rewrite (deltaArgument_spec d1 t).
  - unfold Selector.deltaArgument, bind, viewModeDeltaControl, control. by rewrite Hc.
Qed.

Lemma visibilityOf_string_bool (version : string) (delta : bool) (e : Element) :
  visibilityOf (VString version) (VBool delta) e =
    Normal (if delta then deltaMatch version e else cumulativeShow version e).
Proof.
  destruct delta; [apply visibilityOf_delta|apply cumulativeShow_spec].
Qed.

Lemma Selector_filterApply_string_bool (version : string) (delta : bool)
  (d : Document) (queue : list JsValue) :
  iframeClass d = Some queue ->
  Selector.filterApply (VString version) (VBool delta) d =
    (Normal tt,
     setNodes ((fun e => if taggedItem e
                         then setVisible (if delta then deltaMatch version e
                                          else cumulativeShow version e) e
                         else e) <$> nodes d)
       (setIframeClass
          (Some (queue ++ [applyMessage (VString version) (VBool delta)])%list) d)).
Proof.
  intros Hq.
  apply (Selector_filterApply_total _ _
           (fun e => if delta then deltaMatch version e else cumulativeShow version e));
    [|done].
  intros e. apply visibilityOf_string_bool.
Qed.

(** X8. On a complete index page whose select shows a version other than
    ["master"], [update] enables the toggle, shows its label and filters
    with the version of the select and, as delta, the checked state of the
    toggle, also when the toggle was disabled before: it completes
    normally, posts this one apply message to the frame, and leaves the
    elements [filterApply] leaves. *)
Theorem update_other_version (d : Document) (s t : FormControl) (lbl : Element)
  (queue : list JsValue) :
  tags d = Some s ->
  value s <> "master" ->
  viewModeDelta d = Some t ->
  viewModeDeltaLbl d = Some lbl ->
  iframeClass d = Some queue ->
  (Selector.update d).1 = Normal tt /\
  iframeClass (Selector.update d).2 =
    Some (queue ++ [VObject [("method", VString "filterApply");
                             ("version", VString (value s));
                             ("delta", VBool (checked t))]])%list /\
  tags (Selector.update d).2 = Some s /\
  viewModeDelta (Selector.update d).2 =
    Some (mkFormControl (value t) false (checked t) (onchange t)) /\
  viewModeDeltaLbl (Selector.update d).2 =
    Some (mkElement (localName lbl) (attributes lbl)
            (tokensRemove "hidden" (classList lbl))) /\
  nodes (Selector.update d).2 =
    nodes (Selector.filterApply (VString (value s)) (VBool (checked t)) d).2.
Proof.
  intros Hs Hm Ht Hl Hq. apply String.eqb_neq in Hm.
  rewrite (update_other d s t lbl Hs Hm Ht Hl).
  rewrite (Selector_filterApply_string_bool _ _ (withToggleShown t lbl d) queue) by done.
  rewrite (Selector_filterApply_string_bool _ _ d queue) by done.
  cbn. by rewrite Hs.
Qed.

Lemma sameElement_trans (l1 l2 l3 : list Element) :
  Forall2 sameElement l1 l2 -> Forall2 sameElement l2 l3 -> Forall2 sameElement l1 l3.
Proof.
  intros H12. revert l3. induction H12 as [|a b r1 r2 [Hn Ha] _ IH]; intros l3 H23.
  - by inversion H23.
  - inversion H23 as [|b' c r2' r3 [Hn' Ha'] Hr]; subst. constructor; [|by apply IH].
    split; congruence.
Qed.

Lemma Shows_from (candidate : Element -> bool) (rule : Element -> Prop)
  (d d1 : Document) (r : Completion unit * Document) :
  Forall2 sameElement (nodes d) (nodes d1) ->
  Shows candidate rule d1 r -> Shows candidate rule d r.
Proof.
  intros Hd (Hc & Hs & Hr). split; [done|]. split; [|done].
  by apply (sameElement_trans _ (nodes d1)).
Qed.

(** X9. On an index page whose select shows ["master"], [update] posts the
    clear message and then the apply message for ["master"], with delta
    true exactly when the toggle is enabled and checked; it leaves the
    toggle, its label and the select as they are.  Afterwards a tagged list
    item is visible when that delta is false, and otherwise only when one
    of its two attributes is ["master"]. *)
Theorem update_master_version (d : Document) (s t : FormControl)
  (queue : list JsValue) :
  tags d = Some s ->
  value s = "master" ->
  viewModeDelta d = Some t ->
  iframeClass d = Some queue ->
  iframeClass (Selector.update d).2 =
    Some (queue ++ [VObject [("method", VString "filterClear")];
                    VObject [("method", VString "filterApply");
                             ("version", VString "master");
                             ("delta", VBool (negb (disabled t) && checked t))]])%list /\
  sameControls d (Selector.update d).2 /\
  Shows taggedItem
    (fun e => negb (disabled t) && checked t = false \/
              attributes e !! "data-version-first" = Some "master" \/
              attributes e !! "data-version-last" = Some "master")
    d (Selector.update d).
Proof.
  intros Hs Hm Ht Hq.
  rewrite (update_master d s Hs) by (rewrite Hm; reflexivity).
  rewrite (Selector_filterClear_total d queue Hq), Ht, Hm.
  set (delta := negb (disabled t) && checked t).
  set (d1 := setNodes _ _).
  rewrite (Selector_filterApply_string_bool "master" delta d1
             (queue ++ [clearMessage])%list) by done.
  split; [subst d1; cbn; by rewrite <- app_assoc|].
  split; [subst d1; by repeat split|].
  apply (Shows_from _ _ d d1).
  - subst d1. cbn [nodes setNodes].
    apply (sameElement_replaced taggedItem (withClassList (tokensRemove "hidden"))).
    intros e. apply sameElement_withClassList.
  - apply (Shows_replaced taggedItem
             (fun e => if delta then deltaMatch "master" e else cumulativeShow "master" e));
      [apply taggedItem_same|].
    intros e. destruct delta.
    + unfold deltaMatch, dataVersionFirst, dataVersionLast.
      cbn [attributes setVisible withClassList].
      rewrite orb_true_iff, !bool_decide_eq_true. split; [|tauto].
      intros [?|?]; [done|tauto].
    + split; [intros _; reflexivity|by left].
Qed.

Lemma update_no_select (d : Document) :
  tags d = None -> Selector.update d = (Throw TypeError, d).
Proof.
  intros Hs. unfold Selector.update, bind, selection, control. by rewrite Hs.
Qed.

Lemma update_no_toggle (d : Document) (s : FormControl) :
  tags d = Some s -> value s <> "master" -> viewModeDelta d = None ->
  Selector.update d = (Throw TypeError, d).
Proof.
  intros Hs Hm Ht. apply String.eqb_neq in Hm.
  unfold Selector.update, bind at 1, selection, control. rewrite Hs.
  unfold ret at 1. rewrite Hm. unfold bind, viewModeDeltaControl, control.
  by rewrite Ht.
Qed.

Lemma update_no_label (d : Document) (s t : FormControl) :
  tags d = Some s -> value s <> "master" ->
  viewModeDelta d = Some t -> viewModeDeltaLbl d = None ->
  Selector.update d =
    (Throw TypeError,
     setViewModeDelta
       (Some (mkFormControl (value t) false (checked t) (onchange t))) d).
Proof.
  intros Hs Hm Ht Hl. apply String.eqb_neq in Hm.
  unfold Selector.update, bind at 1, selection, control. rewrite Hs.
  unfold ret at 1. rewrite Hm.
  unfold bind at 1, viewModeDeltaControl, control. rewrite Ht. unfold ret at 1.
  unfold bind at 1, modify. unfold bind at 1.
  cbn [viewModeDeltaLbl setViewModeDelta]. by rewrite Hl.
Qed.

Lemma update_master_no_toggle (d : Document) (s : FormControl) (queue : list JsValue) :
  tags d = Some s -> value s = "master" ->
  iframeClass d = Some queue -> viewModeDelta d = None ->
  (Selector.filterClear d).1 = Normal tt /\
  Selector.update d = (Throw TypeError, (Selector.filterClear d).2).
Proof.
  intros Hs Hm Hq Ht.
  rewrite (update_master d s Hs) by (rewrite Hm; reflexivity).
  rewrite (Selector_filterClear_total d queue Hq). by rewrite Ht.
Qed.

(** X10. [update] on an incomplete index page throws a TypeError, after
    what it did before reaching the missing control: nothing without the
    select, or without the toggle for a version other than ["master"]; the
    toggle enabled without the label; and for ["master"] without the
    toggle, [filterClear] has run and its message is posted. *)
Theorem update_missing_control (d : Document) :
  (tags d = None -> Selector.update d = (Throw TypeError, d)) /\
  (forall s, tags d = Some s -> value s <> "master" -> viewModeDelta d = None ->
     Selector.update d = (Throw TypeError, d)) /\
  (forall s t, tags d = Some s -> value s <> "master" ->
     viewModeDelta d = Some t -> viewModeDeltaLbl d = None ->
     Selector.update d =
       (Throw TypeError,
        setViewModeDelta
          (Some (mkFormControl (value t) false (checked t) (onchange t))) d)) /\
  (forall s queue, tags d = Some s -> value s = "master" ->
     iframeClass d = Some queue -> viewModeDelta d = None ->
     (Selector.filterClear d).1 = Normal tt /\
     Selector.update d = (Throw TypeError, (Selector.filterClear d).2)).
Proof.
  split; [apply update_no_select|].
  split; [apply update_no_toggle|].
  split; [apply update_no_label|apply update_master_no_toggle].
Qed.

Lemma tokensRemove_tokensAdd (token : string) (tokens : list string) :
  tokensRemove token (tokensAdd token tokens) = tokensRemove token tokens.
Proof.
  unfold tokensAdd. destruct (contains tokens token); [done|].
  unfold tokensRemove. rewrite filter_app, filter_cons.
  case_decide; [done|]. by rewrite filter_nil, app_nil_r.
Qed.

Lemma setVisible_clear_setVisible (b : bool) (e : Element) :
  setVisible b (withClassList (tokensRemove "hidden")
                  (setVisible b (withClassList (tokensRemove "hidden") e))) =
  setVisible b (withClassList (tokensRemove "hidden") e).
Proof.
  unfold setVisible, withClassList. cbn [localName attributes classList].
  f_equal. destruct b.
  - by rewrite !tokensRemove_idempotent.
  - by rewrite tokensRemove_tokensAdd, tokensRemove_idempotent.
Qed.

Lemma showOf_same (version : string) (delta : bool) (e e' : Element) :
  sameElement e e' -> showOf version delta e' = showOf version delta e.
Proof.
  intros [_ Ha]. unfold showOf, deltaMatch, cumulativeShow, visibilityOf, attributeOf.
  by rewrite Ha.
Qed.

Lemma applyOne_same (version : string) (delta : bool) (e : Element) :
  sameElement e (applyOne version delta e).
Proof. unfold applyOne. by destruct (taggedItem e). Qed.

Lemma clearOne_same (e : Element) : sameElement e (clearOne e).
Proof. unfold clearOne. by destruct (taggedItem e). Qed.

Lemma applied_applied (version : string) (delta : bool) (e : Element) :
  applyOne version delta (applyOne version delta e) = applyOne version delta e.
Proof.
  unfold applyOne at 1.
  rewrite (taggedItem_same e), (showOf_same _ _ e) by apply applyOne_same.
  unfold applyOne. destruct (taggedItem e); [|done]. apply setVisible_idempotent.
Qed.

Lemma cleared_cleared (e : Element) : clearOne (clearOne e) = clearOne e.
Proof.
  unfold clearOne at 1. rewrite (taggedItem_same e) by apply clearOne_same.
  unfold clearOne. destruct (taggedItem e); [|done].
  unfold withClassList. cbn [localName attributes classList].
  by rewrite tokensRemove_idempotent.
Qed.

Lemma applyOne_tagged (version : string) (delta : bool) (e : Element) :
  taggedItem e = true -> applyOne version delta e = setVisible (showOf version delta e) e.
Proof. intros Ht. unfold applyOne. by rewrite Ht. Qed.

Lemma clearOne_tagged (e : Element) :
  taggedItem e = true -> clearOne e = withClassList (tokensRemove "hidden") e.
Proof. intros Ht. unfold clearOne. by rewrite Ht. Qed.

Lemma applied_cleared_twice (version : string) (delta : bool) (e : Element) :
  applyOne version delta (clearOne (applyOne version delta (clearOne e))) =
  applyOne version delta (clearOne e).
Proof.
  destruct (taggedItem e) eqn:Ht.
  - set (c := withClassList (tokensRemove "hidden") e).
    assert (Hc : sameElement e c) by done.
    assert (Tc : taggedItem c = true) by by rewrite (taggedItem_same e c Hc).
    rewrite (clearOne_tagged e Ht). fold c.
    rewrite (applyOne_tagged _ _ c Tc), (showOf_same _ _ e c Hc).
    set (a := setVisible (showOf version delta e) c).
    assert (Ha : sameElement e a) by done.
    assert (Ta : taggedItem a = true) by by rewrite (taggedItem_same e a Ha).
    rewrite (clearOne_tagged a Ta).
    set (c2 := withClassList (tokensRemove "hidden") a).
    assert (Hc2 : sameElement e c2) by done.
    assert (Tc2 : taggedItem c2 = true) by by rewrite (taggedItem_same e c2 Hc2).
    rewrite (applyOne_tagged _ _ c2 Tc2), (showOf_same _ _ e c2 Hc2).
    apply setVisible_clear_setVisible.
  - unfold clearOne, applyOne. by rewrite !Ht.
Qed.

Lemma Selector_filterApply_one (version : string) (delta : bool) (d : Document)
  (queue : list JsValue) :
  iframeClass d = Some queue ->
  Selector.filterApply (VString version) (VBool delta) d =
    (Normal tt,
     setNodes (applyOne version delta <$> nodes d)
       (setIframeClass
          (Some (queue ++ [applyMessage (VString version) (VBool delta)])%list) d)).
Proof. apply Selector_filterApply_string_bool. Qed.

Lemma Selector_filterClear_one (d : Document) (queue : list JsValue) :
  iframeClass d = Some queue ->
  Selector.filterClear d =
    (Normal tt,
     setNodes (clearOne <$> nodes d)
       (setIframeClass (Some (queue ++ [clearMessage])%list) d)).
Proof. apply Selector_filterClear_total. Qed.

Lemma withDisabled_twice (t : FormControl) :
  withDisabled false (withDisabled false t) = withDisabled false t.
Proof. done. Qed.

(** X11. [update] run a second time completes as the first time and leaves
    the elements, their class lists and the controls as the first run left
    them, on every document (complete or not); only the messages are
    posted again. *)
Theorem update_idempotent (d : Document) :
  (Selector.update (Selector.update d).2).1 = (Selector.update d).1 /\
  nodes (Selector.update (Selector.update d).2).2 = nodes (Selector.update d).2 /\
  sameControls (Selector.update d).2 (Selector.update (Selector.update d).2).2.
Proof.
  destruct (tags d) as [s|] eqn:Hs.
  2:{ rewrite !(update_no_select d Hs). cbn [snd].
      rewrite !(update_no_select d Hs). by repeat split. }
  destruct (String.eqb (value s) "master") eqn:Hm.
  - apply String.eqb_eq in Hm.
    rewrite (update_master d s Hs) by (rewrite Hm; reflexivity).
    destruct (iframeClass d) as [queue|] eqn:Hq.
    2:{ rewrite (Selector_filterClear_no_frame d Hq). cbn [snd].
        rewrite (update_master d s Hs) by (rewrite Hm; reflexivity).
        rewrite (Selector_filterClear_no_frame d Hq).
        by repeat split. }
    rewrite (Selector_filterClear_one d queue Hq).
    set (d1 := setNodes _ _).
    destruct (viewModeDelta d) as [t|] eqn:Ht.
    + rewrite Hm.
      rewrite (Selector_filterApply_one "master" _ d1 (queue ++ [clearMessage])%list)
        by done.
      set (d2 := setNodes _ _). cbn [fst snd].
      assert (Hs2 : tags d2 = Some s) by done.
      rewrite (update_master d2 s Hs2) by (rewrite Hm; reflexivity).
      erewrite (Selector_filterClear_one d2) by reflexivity.
      replace (viewModeDelta d2) with (Some t) by done. rewrite Hm.
      erewrite (Selector_filterApply_one "master") by reflexivity.
      cbn [fst snd nodes setNodes]. split; [done|]. split; [|by repeat split].
      subst d2 d1. cbn [nodes setNodes setIframeClass].
      rewrite <- !list_fmap_compose. apply list_fmap_ext. intros _ e _.
      apply applied_cleared_twice.
    + cbn [fst snd].
      assert (Hs1 : tags d1 = Some s) by done.
      rewrite (update_master d1 s Hs1) by (rewrite Hm; reflexivity).
      erewrite (Selector_filterClear_one d1) by reflexivity.
      replace (viewModeDelta d1) with (@None FormControl) by done.
      cbn [fst snd nodes setNodes]. split; [done|]. split; [|by repeat split].
      subst d1. cbn [nodes setNodes setIframeClass].
      rewrite <- !list_fmap_compose. apply list_fmap_ext. intros _ e _.
      apply cleared_cleared.
  - assert (Hne : value s <> "master") by by apply String.eqb_neq.
    destruct (viewModeDelta d) as [t|] eqn:Ht.
    2:{ rewrite !(update_no_toggle d s Hs Hne Ht). cbn [snd].
        rewrite !(update_no_toggle d s Hs Hne Ht).
        by repeat split. }
    destruct (viewModeDeltaLbl d) as [lbl|] eqn:Hl.
    2:{ rewrite !(update_no_label d s t Hs Hne Ht Hl).
        cbn [snd]. set (d1 := setViewModeDelta _ d).
        rewrite (update_no_label d1 s
                   (mkFormControl (value t) false (checked t) (onchange t)))
          by done.
        by repeat split. }
    rewrite (update_other d s t lbl Hs Hm Ht Hl).
    destruct (iframeClass d) as [queue|] eqn:Hq.
    + rewrite (Selector_filterApply_one _ _ (withToggleShown t lbl d) queue) by done.
      set (d2 := setNodes _ _). cbn [fst snd].
      rewrite (update_other d2 s (withDisabled false t)
                 (withClassList (tokensRemove "hidden") lbl)) by done.
      erewrite Selector_filterApply_one by reflexivity.
      cbn [fst snd nodes setNodes]. split; [done|]. split.
      * subst d2. cbn [nodes setNodes setIframeClass withToggleShown
                       setViewModeDelta setViewModeDeltaLbl].
        rewrite <- !list_fmap_compose. apply list_fmap_ext. intros _ e _.
        apply applied_applied.
      * subst d2. repeat split. cbn.
        unfold withClassList. cbn [localName attributes classList].
        by rewrite tokensRemove_idempotent.
    + rewrite (Selector_filterApply_no_frame _ _ (withToggleShown t lbl d) Hq).
      cbn [fst snd].
      rewrite (update_other (withToggleShown t lbl d) s (withDisabled false t)
                 (withClassList (tokensRemove "hidden") lbl)) by done.
      rewrite (Selector_filterApply_no_frame _ _
                 (withToggleShown (withDisabled false t)
                    (withClassList (tokensRemove "hidden") lbl)
                    (withToggleShown t lbl d)) Hq).
      cbn [fst snd]. split; [done|]. split; [done|]. repeat split. cbn.
      unfold withClassList. cbn [localName attributes classList].
      by rewrite tokensRemove_idempotent.
Qed.

Lemma update_other_version_witness :
  tags readyOther = Some (selectOf "1.2") /\
  value (selectOf "1.2") <> "master" /\
  viewModeDelta readyOther = Some (toggleOf true true) /\
  viewModeDeltaLbl readyOther = Some hiddenLabel /\
  iframeClass readyOther = Some [] /\
  (Selector.update readyOther).1 = Normal tt /\
  iframeClass (Selector.update readyOther).2 =
    Some [VObject [("method", VString "filterApply");
                   ("version", VString "1.2"); ("delta", VBool true)]] /\
  viewModeDelta (Selector.update readyOther).2 = Some (toggleOf false true).
Proof.
  split; [reflexivity|]. split; [discriminate|]. split; [reflexivity|].
  split; [reflexivity|]. split; [reflexivity|].
  destruct (update_other_version readyOther (selectOf "1.2") (toggleOf true true)
              hiddenLabel [] eq_refl ltac:(discriminate) eq_refl eq_refl eq_refl)
    as (H1 & H2 & _ & H4 & _).
  split; [exact H1|]. split; [exact H2|exact H4].
Defined.

Lemma update_master_version_witness :
  tags readyMaster = Some (selectOf "master") /\
  value (selectOf "master") = "master" /\
  viewModeDelta readyMaster = Some (toggleOf false true) /\
  iframeClass readyMaster = Some [] /\
  iframeClass (Selector.update readyMaster).2 =
    Some [VObject [("method", VString "filterClear")];
          VObject [("method", VString "filterApply");
                   ("version", VString "master"); ("delta", VBool true)]] /\
  sameControls readyMaster (Selector.update readyMaster).2.
Proof.
  split; [reflexivity|]. split; [reflexivity|]. split; [reflexivity|].
  split; [reflexivity|].
  destruct (update_master_version readyMaster (selectOf "master") (toggleOf false true)
              [] eq_refl eq_refl eq_refl eq_refl) as (H1 & H2 & _).
  split; [exact H1|exact H2].
Defined.

(** With the toggle checked and enabled, master hides the items that do not
    name master. *)
Example update_master_delta :
  isHidden <$> nodes (Selector.update readyMaster).2 = [true; true].
Proof. reflexivity. Qed.

Lemma update_missing_control_witness :
  tags indexSample = None /\
  Selector.update indexSample = (Throw TypeError, indexSample) /\
  tags (setViewModeDelta None readyMaster) = Some (selectOf "master") /\
  iframeClass (setViewModeDelta None readyMaster) = Some [] /\
  viewModeDelta (setViewModeDelta None readyMaster) = None /\
  Selector.update (setViewModeDelta None readyMaster) =
    (Throw TypeError, (Selector.filterClear (setViewModeDelta None readyMaster)).2) /\
  tags (setViewModeDeltaLbl None readyOther) = Some (selectOf "1.2") /\
  viewModeDelta (setViewModeDeltaLbl None readyOther) = Some (toggleOf true true) /\
  viewModeDeltaLbl (setViewModeDeltaLbl None readyOther) = None /\
  Selector.update (setViewModeDeltaLbl None readyOther) =
    (Throw TypeError,
     setViewModeDelta (Some (toggleOf false true)) (setViewModeDeltaLbl None readyOther)).
Proof.
  split; [reflexivity|].
  split; [apply (proj1 (update_missing_control indexSample)); reflexivity|].
  split; [reflexivity|]. split; [reflexivity|]. split; [reflexivity|].
  split.
  { apply (proj2 (proj2 (proj2 (proj2 (update_missing_control
                                         (setViewModeDelta None readyMaster))))
                    (selectOf "master") [] eq_refl eq_refl eq_refl eq_refl)). }
  split; [reflexivity|]. split; [reflexivity|]. split; [reflexivity|].
  apply (proj1 (proj2 (proj2 (update_missing_control
                                (setViewModeDeltaLbl None readyOther))))
           (selectOf "1.2") (toggleOf true true) eq_refl ltac:(discriminate)
           eq_refl eq_refl).
Defined.

(** *** The listeners *)

Lemma getFilter_runs_update (data : JsValue) (d : Document) (s : FormControl) :
  Get data "method" = Normal (VString "getFilter") ->
  tags d = Some s -> onchange s = Some CallUpdate ->
  Selector.onMessage data d = Selector.update d.
Proof.
  intros Hm Hs Hc. unfold Selector.onMessage, bind at 1, lift. rewrite Hm.
  unfold bind at 1.
  replace (looseEq (VString "getFilter") (PString "getFilter")) with (Normal true)
    by done.
  unfold bind at 1, selection at 1, control. rewrite Hs. unfold ret.
  by rewrite Hc.
Qed.

(** X12. On a page with its select and its toggle, the [readystatechange]
    listener binds the two change handlers and does nothing else: no filter
    is applied and nothing is posted.  After it, a [getFilter] message runs
    [update]. *)
Theorem ready_state_then_getFilter (properties : list (string * JsValue))
  (d : Document) (s t : FormControl) :
  tags d = Some s ->
  viewModeDelta d = Some t ->
  lookupProperty properties "method" = Some (VString "getFilter") ->
  Selector.onReadyStateChange d =
    (Normal tt,
     setViewModeDelta
       (Some (mkFormControl (value t) (disabled t) (checked t) (Some CallUpdate)))
       (setTags
          (Some (mkFormControl (value s) (disabled s) (checked s) (Some CallUpdate)))
          d)) /\
  Selector.onMessage (VObject properties) (Selector.onReadyStateChange d).2 =
    Selector.update (Selector.onReadyStateChange d).2.
Proof.
  intros Hs Ht Hm.
  assert (Hr : Selector.onReadyStateChange d =
    (Normal tt,
     setViewModeDelta
       (Some (mkFormControl (value t) (disabled t) (checked t) (Some CallUpdate)))
       (setTags
          (Some (mkFormControl (value s) (disabled s) (checked s) (Some CallUpdate)))
          d))).
  { unfold Selector.onReadyStateChange, bind, selection, viewModeDeltaControl,
      control, modify. rewrite Hs. unfold ret. cbn [viewModeDelta setTags].
    by rewrite Ht. }
  split; [exact Hr|]. rewrite Hr. cbn [snd].
  eapply getFilter_runs_update; [|reflexivity|reflexivity].
  cbn [Get]. by rewrite Hm.
Qed.

(** X13. The [readystatechange] listener on an incomplete page: without the
    select it throws a TypeError and binds nothing; without the toggle it
    throws after it has bound the handler of the select, so that a
    [getFilter] message still runs [update] afterwards. *)
Theorem ready_state_missing_control (d : Document) :
  (tags d = None -> Selector.onReadyStateChange d = (Throw TypeError, d)) /\
  (forall s, tags d = Some s -> viewModeDelta d = None ->
     Selector.onReadyStateChange d =
       (Throw TypeError,
        setTags
          (Some (mkFormControl (value s) (disabled s) (checked s) (Some CallUpdate)))
          d) /\
     Selector.onMessage getFilterMessage (Selector.onReadyStateChange d).2 =
       Selector.update (Selector.onReadyStateChange d).2).
Proof.
  split.
  - intros Hs. unfold Selector.onReadyStateChange, bind, selection, control.
    by rewrite Hs.
  - intros s Hs Ht.
    assert (Hr : Selector.onReadyStateChange d =
      (Throw TypeError,
       setTags
         (Some (mkFormControl (value s) (disabled s) (checked s) (Some CallUpdate)))
         d)).
    { unfold Selector.onReadyStateChange, bind, selection, viewModeDeltaControl,
        control, modify. rewrite Hs. unfold ret. cbn [viewModeDelta setTags].
      by rewrite Ht. }
    split; [exact Hr|]. rewrite Hr. cbn [snd].
    by eapply getFilter_runs_update.
Qed.

(** X14. The request of the class page reaches [update]: its
    [readystatechange] listener posts one message to the parent, changing
    nothing else, and the listener of an index page whose select has its
    handler bound answers that message by running [update]. *)
Theorem frame_request_runs_update (dF d : Document) (s : FormControl) :
  tags d = Some s ->
  onchange s = Some CallUpdate ->
  (Frame.onReadyStateChange dF).1 = Normal tt /\
  nodes (Frame.onReadyStateChange dF).2 = nodes dF /\
  exists request,
    parent (Frame.onReadyStateChange dF).2 = (parent dF ++ [request])%list /\
    Selector.onMessage request d = Selector.update d.
Proof.
  intros Hs Hc. split; [done|]. split; [done|].
  exists getFilterMessage. split; [done|].
  by apply (getFilter_runs_update _ d s).
Qed.

(** *** The two pages after [update] *)

Lemma Frame_filterApply_string_bool (version : string) (delta : bool) (d : Document) :
  Frame.filterApply (VString version) (VBool delta) d =
    (Normal tt,
     setNodes ((fun e => if tagged e then setVisible (showOf version delta e) e else e)
                 <$> nodes d) d).
Proof.
  apply (Frame_filterApply_total _ _ (showOf version delta)).
  intros e. apply visibilityOf_string_bool.
Qed.

Lemma taggedItem_tagged (e : Element) :
  (tagged e = true -> listItem e = true) -> taggedItem e = tagged e.
Proof.
  intros H. unfold taggedItem. destruct (tagged e); [by rewrite H|apply andb_false_r].
Qed.

Lemma handleAll_cons (listener : JsValue -> Script unit) (message : JsValue)
  (rest : list JsValue) (d : Document) :
  handleAll listener (message :: rest) d =
    let '(c, d') := listener message d in
    let '(c', d'') := handleAll listener rest d' in
    (match c with Normal _ => c' | Throw e => Throw e end, d'').
Proof. reflexivity. Qed.

Lemma handleAll_apply (version : string) (delta : bool) (dF : Document) :
  handleAll Frame.onMessage [applyMessage (VString version) (VBool delta)] dF =
    (Normal tt,
     setNodes ((fun e => if tagged e then setVisible (showOf version delta e) e else e)
                 <$> nodes dF) dF).
Proof.
  by rewrite handleAll_cons, Frame_receives_filterApply,
    Frame_filterApply_string_bool.
Qed.

Lemma handleAll_clear_apply (version : string) (delta : bool) (dF : Document) :
  handleAll Frame.onMessage
    [clearMessage; applyMessage (VString version) (VBool delta)] dF =
    (Normal tt,
     setNodes ((fun e => if tagged e then setVisible (showOf version delta e) e else e)
                 <$> ((fun e => if tagged e
                                then withClassList (tokensRemove "hidden") e else e)
                        <$> nodes dF)) dF).
Proof.
  by rewrite handleAll_cons, Frame_receives_filterClear, Frame_filterClear_total,
    handleAll_apply.
Qed.

(** X16. The two pages agree after [update]: on a complete index page with
    nothing yet posted, whose tagged elements are list items, [update]
    completes normally, and a class page with the same elements that
    handles the posted messages in their order completes normally too and
    ends with the elements, class lists included, that the index page
    ends with. *)
Theorem pages_agree_after_update (d dF : Document) (s t : FormControl)
  (lbl : Element) :
  tags d = Some s ->
  viewModeDelta d = Some t ->
  viewModeDeltaLbl d = Some lbl ->
  iframeClass d = Some [] ->
  nodes dF = nodes d ->
  taggedAreItems d ->
  exists messages,
    iframeClass (Selector.update d).2 = Some messages /\
    (Selector.update d).1 = Normal tt /\
    (handleAll Frame.onMessage messages dF).1 = Normal tt /\
    nodes (handleAll Frame.onMessage messages dF).2 = nodes (Selector.update d).2.
Proof.
  intros Hs Ht Hl Hq Hn Hli.
  assert (Hitem : forall i e, nodes d !! i = Some e -> taggedItem e = tagged e).
  { intros i e He. apply taggedItem_tagged. apply Hli.
    apply list_elem_of_lookup. by exists i. }
  destruct (String.eqb (value s) "master") eqn:Hm.
  - apply String.eqb_eq in Hm.
    exists [clearMessage;
            applyMessage (VString "master") (VBool (negb (disabled t) && checked t))].
    rewrite (update_master d s Hs) by (rewrite Hm; reflexivity).
    rewrite (Selector_filterClear_one d [] Hq), Ht, Hm.
    erewrite (Selector_filterApply_one "master") by reflexivity.
    rewrite handleAll_clear_apply.
    cbn [fst snd nodes setNodes setIframeClass iframeClass].
    split; [done|]. split; [done|]. split; [done|].
    rewrite Hn, <- !list_fmap_compose. apply list_fmap_ext. intros i e He.
    cbn [compose]. unfold applyOne, clearOne.
    rewrite (Hitem i e He). destruct (tagged e) eqn:Hte; [|by rewrite Hte, (Hitem i e He), Hte].
    rewrite (tagged_same e), (taggedItem_same e) by apply sameElement_withClassList.
    by rewrite (Hitem i e He), Hte.
  - exists [applyMessage (VString (value s)) (VBool (checked t))].
    rewrite (update_other d s t lbl Hs Hm Ht Hl).
    erewrite Selector_filterApply_one by (cbn; exact Hq).
    rewrite handleAll_apply.
    cbn [fst snd nodes setNodes setIframeClass iframeClass withToggleShown
           setViewModeDelta setViewModeDeltaLbl].
    split; [done|]. split; [done|]. split; [done|].
    rewrite Hn. apply list_fmap_ext. intros i e He. unfold applyOne.
    by rewrite (Hitem i e He).
Qed.

(** *** The cumulative rule on strings *)

Lemma lessEq_attribute (version : string) (e : Element) (name : string) :
  lessEq (attributeOf e name) (VString version) =
    Normal match attributes e !! name with
           | Some a => String.leb a version
           | None => nullLessEq version
           end.
Proof.
  unfold attributeOf, nullLessEq. destruct (attributes e !! name) as [a|].
  - apply lessEq_strings_leb.
  - by destruct (lessEq_string_normal PNull version) as [b ->].
Qed.

Lemma cumulativeShow_lexicographic (version : string) (e : Element) :
  comparesAsStrings version e = true ->
  cumulativeShow version e = true <-> lexicographicRule version e.
Proof.
  intros Hc. assert (H := cumulativeShow_spec version e).
  unfold visibilityOf, computeVisibility in H. cbn [ToBoolean] in H.
  rewrite !lessEq_attribute in H. unfold looseEq in H.
  cbn [ToPrimitive bindC looseEqPrimitive] in H.
  unfold comparesAsStrings, hasAttribute, dataVersionFirst, dataVersionLast in *.
  unfold lexicographicRule.
  destruct (String.eqb_spec version "master") as [->|Hne].
  { split; [by left|intros _; reflexivity]. }
  destruct (attributes e !! "data-version-first") as [a|] eqn:Ha;
    destruct (attributes e !! "data-version-last") as [b|] eqn:Hb;
    cbn in Hc; try (apply negb_true_iff in Hc; rewrite Hc in H);
    cbn [bindC] in H.
  - destruct (String.leb a version) eqn:Hla; injection H as <-.
    + split; [|done]. intros _. right. left. by exists a.
    + split.
      * intros Hlb. right. right. by exists b.
      * intros [?|[(a' & [= <-] & ?)|(b' & [= <-] & ?)]]; [done|congruence|done].
  - destruct (String.leb a version) eqn:Hla; injection H as <-.
    + split; [|done]. intros _. right. left. by exists a.
    + split; [done|].
      intros [?|[(a' & [= <-] & ?)|(b' & ? & ?)]]; [done|congruence|done].
  - injection H as <-. split.
    + intros Hlb. right. right. by exists b.
    + intros [?|[(a' & ? & ?)|(b' & [= <-] & ?)]]; [done|done|done].
  - injection H as <-. split; [done|].
    intros [?|[(a' & ? & ?)|(b' & ? & ?)]]; done.
Qed.

Lemma Shows_replaced_on (select candidate vis : Element -> bool)
  (rule : Element -> Prop) (d d' : Document) :
  (forall e e', sameElement e e' -> candidate e' = candidate e) ->
  (forall e, candidate e = true -> select e = true) ->
  (forall e, candidate e = true -> (rule (setVisible (vis e) e) <-> vis e = true)) ->
  Shows candidate rule d
    (Normal tt,
     setNodes ((fun e => if select e then setVisible (vis e) e else e) <$> nodes d) d').
Proof.
  intros Hc Hsel Hr. split; [done|]. split.
  - apply (sameElement_replaced select (fun e => setVisible (vis e) e)).
    intros e. apply sameElement_withClassList.
  - cbn [fst snd nodes setNodes]. intros e' Hin Hce'.
    apply list_elem_of_fmap in Hin as (e & -> & He).
    assert (Hce : candidate e = true).
    { destruct (select e); [|done].
      by rewrite <- (Hc e (setVisible (vis e) e)). }
    rewrite (Hsel e Hce) in *.
    rewrite isHidden_setVisible, (Hr e Hce). by destruct (vis e).
Qed.

Lemma comparesAsStrings_same (version : string) (e e' : Element) :
  sameElement e e' -> comparesAsStrings version e' = comparesAsStrings version e.
Proof.
  intros [_ Ha]. unfold comparesAsStrings, hasAttribute. by rewrite Ha.
Qed.

(** X17. The cumulative rule is the lexicographic one wherever no missing
    attribute is compared as a number.  Of the elements that
    [filterApply(version, false)] selects, for a version that is a string
    (the tagged elements of a class page, the tagged list items of an index
    page with its frame), one that carries both attributes, or any one when
    [null <= version] is false (as for ["5.2.0"]), is visible afterwards
    exactly when the version is ["master"] or an attribute it carries is at
    most the version in the order of strings. *)
Theorem cumulative_rule_on_strings (version : string) :
  (forall d : Document,
     Shows (fun e => tagged e && comparesAsStrings version e)
       (lexicographicRule version) d
       (Frame.filterApply (VString version) (VBool false) d)) /\
  (forall (d : Document) (queue : list JsValue),
     iframeClass d = Some queue ->
     Shows (fun e => taggedItem e && comparesAsStrings version e)
       (lexicographicRule version) d
       (Selector.filterApply (VString version) (VBool false) d)).
Proof.
  assert (Hrule : forall e, comparesAsStrings version e = true ->
            lexicographicRule version (setVisible (cumulativeShow version e) e) <->
            cumulativeShow version e = true).
  { intros e Hc. symmetry.
    apply (cumulativeShow_lexicographic version e Hc). }
  split.
  - intros d. rewrite (Frame_filterApply_total _ _ (cumulativeShow version))
      by apply cumulativeShow_spec.
    apply (Shows_replaced_on tagged).
    + intros e e' He. by rewrite (tagged_same e e'), (comparesAsStrings_same _ e e').
    + by intros e [? _]%andb_true_iff.
    + intros e [_ ?]%andb_true_iff. by apply Hrule.
  - intros d queue Hq.
    rewrite (Selector_filterApply_total _ _ (cumulativeShow version) d queue)
      by (apply cumulativeShow_spec || done).
    apply (Shows_replaced_on taggedItem).
    + intros e e' He.
      by rewrite (taggedItem_same e e'), (comparesAsStrings_same _ e e').
    + by intros e [? _]%andb_true_iff.
    + intros e [_ ?]%andb_true_iff. by apply Hrule.
Qed.

Lemma cumulative_rule_on_strings_witness :
  Shows (fun e => tagged e && comparesAsStrings "5.2.0" e)
    (lexicographicRule "5.2.0") classSample
    (Frame.filterApply (VString "5.2.0") (VBool false) classSample) /\
  iframeClass indexSample = Some [] /\
  Shows (fun e => taggedItem e && comparesAsStrings "1.2" e)
    (lexicographicRule "1.2") indexSample
    (Selector.filterApply (VString "1.2") (VBool false) indexSample).
Proof.
  split; [apply (proj1 (cumulative_rule_on_strings "5.2.0"))|].
  split; [reflexivity|].
  apply (proj2 (cumulative_rule_on_strings "1.2") indexSample []). reflexivity.
Defined.

Example comparesAsStrings_release :
  comparesAsStrings "5.2.0" since20 = true /\ comparesAsStrings "1.2" since20 = false /\
  comparesAsStrings "1.2" from10to12 = true.
Proof. repeat split; reflexivity. Qed.

Lemma ready_state_then_getFilter_witness :
  tags loadingSample = Some (mkFormControl "1.2" false false None) /\
  viewModeDelta loadingSample = Some (mkFormControl "on" false false None) /\
  lookupProperty [("method", VString "getFilter")] "method" = Some (VString "getFilter") /\
  (Selector.onReadyStateChange loadingSample).1 = Normal tt /\
  nodes (Selector.onReadyStateChange loadingSample).2 = nodes loadingSample /\
  iframeClass (Selector.onReadyStateChange loadingSample).2 = Some [] /\
  Selector.onMessage getFilterMessage (Selector.onReadyStateChange loadingSample).2 =
    Selector.update (Selector.onReadyStateChange loadingSample).2.
Proof.
  split; [reflexivity|]. split; [reflexivity|]. split; [reflexivity|].
  destruct (ready_state_then_getFilter [("method", VString "getFilter")] loadingSample
              (mkFormControl "1.2" false false None)
              (mkFormControl "on" false false None) eq_refl eq_refl eq_refl)
    as [Hr Hm].
  split; [by rewrite Hr|]. split; [by rewrite Hr|]. split; [by rewrite Hr|].
  exact Hm.
Defined.

Lemma ready_state_missing_control_witness :
  tags indexSample = None /\
  Selector.onReadyStateChange indexSample = (Throw TypeError, indexSample) /\
  tags (setViewModeDelta None loadingSample) = Some (mkFormControl "1.2" false false None) /\
  viewModeDelta (setViewModeDelta None loadingSample) = None /\
  tags (Selector.onReadyStateChange (setViewModeDelta None loadingSample)).2 =
    Some (selectOf "1.2").
Proof.
  split; [reflexivity|].
  split; [apply (proj1 (ready_state_missing_control indexSample)); reflexivity|].
  split; [reflexivity|]. split; [reflexivity|].
  destruct (proj2 (ready_state_missing_control (setViewModeDelta None loadingSample))
              (mkFormControl "1.2" false false None) eq_refl eq_refl) as [Hr _].
  by rewrite Hr.
Defined.

Lemma frame_request_runs_update_witness :
  tags readyOther = Some (selectOf "1.2") /\
  onchange (selectOf "1.2") = Some CallUpdate /\
  (Frame.onReadyStateChange classSample).1 = Normal tt /\
  nodes (Frame.onReadyStateChange classSample).2 = nodes classSample /\
  exists request,
    parent (Frame.onReadyStateChange classSample).2 = (parent classSample ++ [request])%list /\
    Selector.onMessage request readyOther = Selector.update readyOther.
Proof.
  split; [reflexivity|]. split; [reflexivity|].
  apply (frame_request_runs_update classSample readyOther (selectOf "1.2"));
    reflexivity.
Defined.

Lemma taggedAreItems_readyOther : taggedAreItems readyOther.
Proof.
  intros e He _. unfold readyOther, readyIndexPage in He. cbn [nodes] in He.
  apply elem_of_cons in He as [->|He]; [reflexivity|].
  apply elem_of_cons in He as [->|He]; [reflexivity|].
  by apply elem_of_nil in He.
Defined.

Lemma pages_agree_after_update_witness :
  tags readyOther = Some (selectOf "1.2") /\
  viewModeDelta readyOther = Some (toggleOf true true) /\
  viewModeDeltaLbl readyOther = Some hiddenLabel /\
  iframeClass readyOther = Some [] /\
  nodes (classPage [since20; from10to12]) = nodes readyOther /\
  taggedAreItems readyOther /\
  exists messages,
    iframeClass (Selector.update readyOther).2 = Some messages /\
    (Selector.update readyOther).1 = Normal tt /\
    (handleAll Frame.onMessage messages (classPage [since20; from10to12])).1 = Normal tt /\
    nodes (handleAll Frame.onMessage messages (classPage [since20; from10to12])).2 =
      nodes (Selector.update readyOther).2.
Proof.
  split; [reflexivity|]. split; [reflexivity|]. split; [reflexivity|].
  split; [reflexivity|]. split; [reflexivity|].
  split; [exact taggedAreItems_readyOther|].
  apply (pages_agree_after_update readyOther (classPage [since20; from10to12])
           (selectOf "1.2") (toggleOf true true) hiddenLabel);
    (reflexivity || exact taggedAreItems_readyOther).
Defined.
